(** * A shallow embedding of the judge script (script/judge.py)

    The judge compiles a C++ solution, runs it on every [*.in] file of a
    problem directory and classifies each run (AC, WA, RE, TLE,
    NO_EXPECTED).  This development embeds its functions as functions
    over an explicit world (file system, clock, child resource counter,
    event log) and proves properties of the verdicts, the measurements,
    the enumeration order and the exit code.

    Conventions.  Python [str] values are [string]s whose characters are
    the code points below 256.  Python [float] values that carry times
    are exact rationals ([Q]); the text that [/usr/bin/time] leaves in
    its log is turned into such a number by the host's [float].
    Python [int] values are [Z]. *)

From Stdlib Require Import Ascii String QArith Qabs Qround.
From stdpp Require Import gmap strings list sorting pretty.

Local Open Scope string_scope.
Local Open Scope list_scope.
Local Open Scope Z_scope.

(** ** Text primitives of the Python runtime *)

Module Py.

(** [str.isspace] on one character: the code points below 256 that
    CPython classifies as whitespace. *)
Definition isspace (c : ascii) : bool :=
  let n := N_of_ascii c in
  ((9 <=? n) && (n <=? 13) || (28 <=? n) && (n <=? 32)
   || (n =? 133) || (n =? 160))%N.

(** [str.lstrip()] and [str.rstrip()] without argument. *)
Fixpoint lstrip (s : string) : string :=
  match s with
  | "" => ""
  | String c s' => if isspace c then lstrip s' else s
  end.

Fixpoint rstrip (s : string) : string :=
  match s with
  | "" => ""
  | String c s' =>
      match rstrip s' with
      | "" => if isspace c then "" else String c ""
      | t => String c t
      end
  end.

(** [str.strip()]. *)
Definition strip (s : string) : string := rstrip (lstrip s).

(** The token collected so far, closed when a separator or the end of
    the text is met; an empty one yields no token. *)
Definition flush (cur : string) : list string :=
  match cur with "" => [] | _ => [cur] end.

Fixpoint split_from (cur : string) (s : string) : list string :=
  match s with
  | "" => flush cur
  | String c s' =>
      if isspace c then flush cur ++ split_from "" s'
      else split_from (cur +:+ String c "") s'
  end.

(** [str.split()] without argument: the maximal runs of characters
    that are not whitespace. *)
Definition split (s : string) : list string := split_from "" s.

(** [sep.join(parts)]. *)
Fixpoint join (sep : string) (parts : list string) : string :=
  match parts with
  | [] => ""
  | [p] => p
  | p :: ps => p +:+ sep +:+ join sep ps
  end.

(** Line boundaries of [str.splitlines]: LF, VT, FF, CR, FS, GS, RS
    and NEL. *)
Definition islinebreak (c : ascii) : bool :=
  let n := N_of_ascii c in
  ((10 <=? n) && (n <=? 13) || (28 <=? n) && (n <=? 30) || (n =? 133))%N.

Definition is_lf (c : ascii) : bool := (N_of_ascii c =? 10)%N.
Definition is_cr (c : ascii) : bool := (N_of_ascii c =? 13)%N.

(** [str.splitlines()]: a CR immediately followed by LF is one
    boundary; the text after the last boundary is a line only when it
    is not empty. *)
Fixpoint splitlines_from (cur : string) (s : string) : list string :=
  match s with
  | "" => flush cur
  | String c s' =>
      if islinebreak c then
        cur :: match s' with
               | String c' s'' =>
                   if is_cr c && is_lf c' then splitlines_from "" s''
                   else splitlines_from "" s'
               | "" => []
               end
      else splitlines_from (cur +:+ String c "") s'
  end.

Definition splitlines (s : string) : list string := splitlines_from "" s.

(** [str.rstrip(chars)] for a one-character set. *)
Fixpoint rstrip_char (x : ascii) (s : string) : string :=
  match s with
  | "" => ""
  | String c s' =>
      match rstrip_char x s' with
      | "" => if Ascii.eqb c x then "" else String c ""
      | t => String c t
      end
  end.

(** Truth value of a [str]. *)
Definition truthy (s : string) : bool :=
  match s with "" => false | _ => true end.



End Py.

(** ** Paths ([pathlib.PurePosixPath])

    A path is the list of its components, the root ["/"] first when the
    path is absolute. *)

Abbreviation Path := (list string).

Module Path.

(** The components of a path text: empty components and ["."] are
    dropped while parsing. *)
Fixpoint components_from (cur : string) (s : string) : list string :=
  match s with
  | "" => [cur]
  | String c s' =>
      if Ascii.eqb c "/" then cur :: components_from "" s'
      else components_from (cur +:+ String c "") s'
  end.

Definition keep_component (c : string) : bool :=
  negb (String.eqb c "" || String.eqb c ".").

Definition parse (s : string) : Path :=
  let root :=
    if String.prefix "///" s then ["/"]
    else if String.prefix "//" s then ["//"]
    else if String.prefix "/" s then ["/"]
    else [] in
  root ++ filter (fun c => Is_true (keep_component c)) (components_from "" s).

Definition is_absolute (s : string) : bool := String.prefix "/" s.

(** [p / s]: an absolute right operand replaces the left one. *)
Definition div (p : Path) (s : string) : Path :=
  if is_absolute s then parse s else p ++ parse s.

(** [p.name]: the last component, empty for the root. *)
Definition name (p : Path) : string :=
  match reverse p with
  | [] => ""
  | n :: rest =>
      match rest with
      | [] => if String.prefix "/" n then "" else n
      | _ => n
      end
  end.

(** [str(p)]. *)
Definition str (p : Path) : string :=
  match p with
  | [] => "."
  | r :: rest =>
      if String.prefix "/" r then r +:+ Py.join "/" rest
      else Py.join "/" p
  end.

(** [name.rfind(".")]. *)
Fixpoint rfind_dot (s : string) : option nat :=
  match s with
  | "" => None
  | String c s' =>
      match rfind_dot s' with
      | Some i => Some (S i)
      | None => if Ascii.eqb c "." then Some 0%nat else None
      end
  end.

(** [p.suffix]: the text from the last dot of the name on, when that
    dot is neither the first nor the last character of the name. *)
Definition suffix_of_name (n : string) : string :=
  match rfind_dot n with
  | Some i =>
      if ((0 <? i) && (i <? String.length n - 1))%nat
      then substring i (String.length n - i) n
      else ""
  | None => ""
  end.

Definition with_suffix_name (n suffix : string) : string :=
  let old := suffix_of_name n in
  match old with
  | "" => n +:+ suffix
  | _ => substring 0 (String.length n - String.length old) n +:+ suffix
  end.

(** [p.with_suffix(suffix)], for a path that has a name. *)
Definition with_suffix (p : Path) (suffix : string) : Path :=
  match reverse p with
  | [] => []
  | n :: rest => reverse rest ++ [with_suffix_name n suffix]
  end.

(** [fnmatch] against the pattern ["*" + ext]: the name ends with
    [ext]. *)
Definition ends_with (ext n : string) : bool :=
  (String.length ext <=? String.length n)%nat
  && String.eqb
       (substring (String.length n - String.length ext) (String.length ext) n)
       ext.

(** The order of [sorted] on paths: component by component, each
    compared as text by code points. *)
Fixpoint leb (p q : Path) : bool :=
  match p, q with
  | [], _ => true
  | _ :: _, [] => false
  | a :: p', b :: q' =>
      match String.compare a b with
      | Lt => true
      | Gt => false
      | Eq => leb p' q'
      end
  end.

Definition le (p q : Path) : Prop := Is_true (leb p q).

Global Instance le_dec : RelDecision le.
Proof. intros p q. unfold le. apply _. Defined.

End Path.

(** ** Data classes

    The fields [message], [stdout] and [stderr] of [CompileResult] carry
    the prefix [compile_], since [TestResult] has fields of the same
    names. *)

Record CompileResult := {
  success : bool;
  compile_message : string;
  compile_stdout : string;
  compile_stderr : string;
  elapsed : Q;
  binary : option Path;
}.

Record TestResult := {
  name : string;
  status : string;
  time_seconds : option Q;
  memory_kb : option Z;
  stdout : string;
  stderr : string;
  message : string;
}.

(** What [subprocess.run] hands back for a child that ended, and the
    same with the attribute [time_log_path] that [run_with_time] sets on
    it. *)
Record Completed := {
  returncode : Z;
  out_text : string;
  err_text : string;
}.

Record CompletedProcess := {
  proc : Completed;
  time_log_path : option Path;
}.

(** The partial output carried by [subprocess.TimeoutExpired]: absent,
    text, or undecoded bytes. *)
Inductive Captured :=
  | CapNone
  | CapStr (s : string)
  | CapBytes (b : string).

Inductive Exn :=
  | FileNotFoundError (msg : string)
  | IsADirectoryError (p : Path)
  | TimeoutExpired (out err : Captured)
  | IndexError
  | AttributeError (msg : string)
  | SystemExit (code : Z)
  | HostError (msg : string).

Inductive Res (A : Type) :=
  | Ok (a : A)
  | Raise (e : Exn).
Arguments Ok {A} a.
Arguments Raise {A} e.

(** ** The world the judge runs in *)

(** The part of the world that child processes and the operating system
    act on: regular files with their text, directories, the reading of
    [time.perf_counter], and the [ru_maxrss] field of
    [getrusage(RUSAGE_CHILDREN)]. *)
Record OS := {
  files : gmap Path string;
  dirs : gset Path;
  clock : Q;
  children_maxrss : Z;
}.

Inductive Stream := Stdout | Stderr.

(** What the judge does, in order: the child processes it starts
    (command and standard-input file), the text it prints, the
    [CompileResult] the orchestrator receives and the [TestResult]s its
    loop receives. *)
Inductive Event :=
  | EvSpawn (cmd : list string) (stdin : option Path)
  | EvPrint (to : Stream) (text : string)
  | EvCompiled (c : CompileResult)
  | EvResult (r : TestResult).

Record World := {
  os : OS;
  events : list Event;
}.

(** A metadata record of [luogu_problems.json], with the members the
    judge consults; a member that is absent or [null] is [None].
    [info_other_members] tells whether the JSON object has any member
    besides those present here. *)
Record ProblemInfo := {
  info_pid : option string;
  info_directory : option string;
  info_time_limit_ms : option Q;
  info_memory_limit_kb : option Q;
  info_time_limit_human : option string;
  info_memory_limit_human : option string;
  info_other_members : bool;
}.

(** The metadata dictionary, in the order of its keys. *)
Abbreviation Metadata := (list (string * ProblemInfo)).

(** Everything the script asks of its host: the platform, the child
    processes, the temporary names, and the library routines whose
    output is only passed on. *)
Record Host := {
  (** whether [import resource] succeeded *)
  resource_available : bool;
  (** [subprocess.run(cmd, stdin=..., timeout=...)] with captured text
      output *)
  subprocess_run :
    list string -> option Path -> option Q -> OS -> Res Completed * OS;
  (** the name picked by [tempfile.mkstemp(prefix=...)] *)
  mkstemp : string -> OS -> Path;
  (** the name picked by [tempfile.TemporaryDirectory(prefix=...)] *)
  mkdtemp : string -> OS -> Path;
  (** [float(text)]; [None] stands for [ValueError] *)
  float_of_str : string -> option Q;
  (** [str(x)] of a float *)
  str_of_float : Q -> string;
  (** [format(x, ".nf")] *)
  format_fixed : nat -> Q -> string;
  (** [difflib.unified_diff(a, b, fromfile, tofile, lineterm="")] *)
  unified_diff : list string -> list string -> string -> string -> list string;
  (** [bytes.decode("utf-8", errors="replace")] *)
  decode_replace : string -> string;
  (** [Path.resolve()] *)
  resolve : Path -> Path;
  (** [Path(__file__).with_name("luogu_problems.json")] *)
  METADATA_PATH : Path;
  (** [json.loads(text)]; [None] stands for [JSONDecodeError] *)
  json_loads : string -> option Metadata;
}.

(** ** State and exceptions *)

Definition M (A : Type) : Type := World -> Res A * World.

Global Instance M_ret : MRet M := fun A a w => (Ok a, w).

Global Instance M_bind : MBind M := fun A B f m w =>
  match m w with
  | (Ok a, w') => f a w'
  | (Raise e, w') => (Raise e, w')
  end.

Definition raise {A} (e : Exn) : M A := fun w => (Raise e, w).

(** [try: body except ...: handler]; [handler e = None] when no clause
    matches [e]. *)
Definition try_except {A} (body : M A) (handler : Exn -> option (M A)) : M A :=
  fun w =>
    match body w with
    | (Ok a, w') => (Ok a, w')
    | (Raise e, w') =>
        match handler e with
        | Some h => h w'
        | None => (Raise e, w')
        end
    end.

(** [try: body finally: cleanup], the shape of a [with] block. *)
Definition try_finally {A} (body : M A) (cleanup : M unit) : M A :=
  fun w =>
    match body w with
    | (r, w') =>
        match cleanup w' with
        | (Ok _, w'') => (r, w'')
        | (Raise e, w'') => (Raise e, w'')
        end
    end.

Definition gets {A} (f : OS -> A) : M A := fun w => (Ok (f (os w)), w).

Definition modify_os (f : OS -> OS) : M unit :=
  fun w => (Ok tt, {| os := f (os w); events := events w |}).

Definition emit (e : Event) : M unit :=
  fun w => (Ok tt, {| os := os w; events := events w ++ [e] |}).

Definition print (to : Stream) (text : string) : M unit :=
  emit (EvPrint to text).

(** ** File system primitives *)

Definition is_file (o : OS) (p : Path) : bool :=
  bool_decide (is_Some (files o !! p)).

Definition is_dir (o : OS) (p : Path) : bool :=
  bool_decide (p ∈ dirs o).

Definition exists_path (o : OS) (p : Path) : bool :=
  is_file o p || is_dir o p.

Definition read_text (o : OS) (p : Path) : string :=
  default "" (files o !! p).

Definition set_files (f : gmap Path string -> gmap Path string) (o : OS) : OS :=
  {| files := f (files o); dirs := dirs o; clock := clock o;
     children_maxrss := children_maxrss o |}.

Definition set_dirs (f : gset Path -> gset Path) (o : OS) : OS :=
  {| files := files o; dirs := f (dirs o); clock := clock o;
     children_maxrss := children_maxrss o |}.

(** [path.unlink()] inside [try ... except OSError: pass]. *)
Definition unlink_quiet (p : Path) : M unit :=
  modify_os (set_files (delete p)).

(** [path.open("r")]: the file must be there. *)
Definition open_read (p : Path) : M unit :=
  f ← gets (fun o => is_file o p);
  if f : bool then mret tt
  else
    d ← gets (fun o => is_dir o p);
    if d : bool then raise (IsADirectoryError p)
    else raise (FileNotFoundError (Path.str p)).

(** [Path.glob("*" + ext)]: the entries of [d] whose name ends with
    [ext], in the order the directory yields them. *)
Definition is_child (d p : Path) : bool :=
  match reverse p with
  | [] => false
  | n :: rest => bool_decide (reverse rest = d) && negb (String.prefix "/" n)
  end.

Definition glob (o : OS) (d : Path) (ext : string) : list Path :=
  filter (fun p => Is_true (is_child d p && Path.ends_with ext (Path.name p)))
         (elements (dom (files o) ∪ dirs o)).

(** [sorted] on a list of paths. *)
Definition sorted (l : list Path) : list Path := merge_sort Path.le l.

(** ** The judge *)

Definition TIME_BINARY : Path := ["/"; "usr"; "bin"; "time"].

Definition nl : string := String (ascii_of_nat 10) "".

(** [int(x)] of a float: truncation toward zero. *)
Definition int_of_float (x : Q) : Z := Z.quot (Qnum x) (Z.pos (Qden x)).

Definition normalize_text (text : string) : list string :=
  Py.split (Py.strip text).



Definition read_text_safe (o : OS) (path : Path) : string :=
  if is_file o path then read_text o path else "".

(** The command line after [argparse]: defaults are filled in. *)
Record Args := {
  arg_problem_dir : option Path;
  arg_pid : option string;
  arg_base_dir : Path;
  arg_source : string;
  arg_std : string;
  arg_timeout : option Q;
  arg_cflags : list string;
}.

Section Judge.

Variable H : Host.

(** The host's [subprocess.run] acting on the world. *)
Definition host_run (cmd : list string) (stdin : option Path)
    (timeout : option Q) : M Completed :=
  fun w =>
    match subprocess_run H cmd stdin timeout (os w) with
    | (r, o') => (r, {| os := o'; events := events w |})
    end.

(** [subprocess.run], recorded in the event log. *)
Definition run_process (cmd : list string) (stdin : option Path)
    (timeout : option Q) : M Completed :=
  emit (EvSpawn cmd stdin);;
  host_run cmd stdin timeout.

(** [tempfile.mkstemp(prefix=...)] followed by [os.close(fd)]: an empty
    file under the name the host picks. *)
Definition make_temp_file (prefix : string) : M Path :=
  p ← gets (mkstemp H prefix);
  modify_os (set_files (insert p ""));;
  mret p.

(** The command line [cmd] that [compile_source] builds. *)
Definition compile_command (source output : Path) (std : string)
    (extra_flags : list string) : list string :=
  let cmd :=
    ["g++"; Path.str source; "-std=" +:+ std; "-O2"; "-pipe"; "-Wall";
     "-Wextra"; "-Wshadow"; "-Wconversion"; "-DLOCAL=1"; "-o";
     Path.str output] in
  match extra_flags with [] => cmd | _ => cmd ++ extra_flags end.

Definition compile_source (source output : Path) (std : string)
    (extra_flags : list string) : M CompileResult :=
  let cmd := compile_command source output std extra_flags in
  start ← gets clock;
  p ← run_process cmd None None;
  stop ← gets clock;
  let elapsed := (stop - start)%Q in
  let success := bool_decide (returncode p = 0) in
  let message :=
    if success then "Compilation succeeded" else "Compilation failed" in
  mret {| success := success; compile_message := message;
          compile_stdout := out_text p; compile_stderr := err_text p;
          elapsed := elapsed;
          binary := if success then Some output else None |}.

Definition list_tests (o : OS) (problem_dir : Path) : list (Path * Path) :=
  map (fun input_file => (input_file, Path.with_suffix input_file ".out"))
      (sorted (glob o problem_dir ".in")).

Definition parse_time_output (o : OS) (path : Path) : option Q * option Z :=
  if negb (is_file o path) then (None, None)
  else
    let raw := Py.strip (read_text o path) in
    if negb (Py.truthy raw) then (None, None)
    else
      match Py.split raw with
      | p0 :: p1 :: _ =>
          match float_of_str H p0 with
          | None => (None, None)
          | Some t =>
              match float_of_str H p1 with
              | None => (None, None)
              | Some m => (Some t, Some (int_of_float m))
              end
          end
      | _ => (None, None)
      end.

Definition run_with_time (command : list string) (stdin : Path)
    (timeout : option Q) : M CompletedProcess :=
  time_binary ← gets (fun o => is_file o TIME_BINARY);
  '(time_output_path, cmd) ←
    (if time_binary : bool then
       temp_path ← make_temp_file "judge_time_";
       mret (Some temp_path,
             [Path.str TIME_BINARY; "-f"; "%e %M"; "-o"; Path.str temp_path]
             ++ command)
     else mret (None, command));
  open_read stdin;;
  result ← run_process cmd (Some stdin) timeout;
  mret {| proc := result; time_log_path := time_output_path |}.

Definition ensure_str (value : Captured) : string :=
  match value with
  | CapNone => ""
  | CapStr s => s
  | CapBytes b => decode_replace H b
  end.

(** [f"{timeout}"] for an optional float. *)
Definition str_of_timeout (timeout : option Q) : string :=
  match timeout with
  | Some t => str_of_float H t
  | None => "None"
  end.

Definition run_single_test (executable input_file expected_file : Path)
    (timeout : option Q) : M TestResult :=
  let command := [Path.str executable] in
  exe ← gets (fun o => is_file o executable);
  if negb exe then
    raise (FileNotFoundError
             ("Executable " +:+ Path.str executable +:+ " not found"))
  else
  start_time ← gets clock;
  usage_before ←
    (if resource_available H then gets (fun o => Some (children_maxrss o))
     else mret None);
  outcome ←
    try_except
      (p ← run_with_time command input_file timeout; mret (inr p))
      (fun exc =>
         match exc with
         | TimeoutExpired out err =>
             Some (mret (inl
               {| name := Path.name input_file; status := "TLE";
                  time_seconds := timeout; memory_kb := None;
                  stdout := ensure_str out; stderr := ensure_str err;
                  message := "Timeout after " +:+ str_of_timeout timeout
                             +:+ " seconds" |}))
         | _ => None
         end);
  match outcome with
  | inl timed_out => mret timed_out
  | inr p =>
      end_time ← gets clock;
      let program_stdout := out_text (proc p) in
      let program_stderr := err_text (proc p) in
      let exit_code := returncode (proc p) in
      '(time_seconds, memory_kb) ←
        match time_log_path p with
        | Some log =>
            tm ← gets (fun o => parse_time_output o log);
            unlink_quiet log;;
            mret tm
        | None =>
            match usage_before with
            | Some before =>
                after ← gets children_maxrss;
                let delta := after - before in
                mret (Some (end_time - start_time)%Q,
                      Some (if bool_decide (0 < delta) then delta else after))
            | None => mret (Some (end_time - start_time)%Q, None)
            end
        end;
      let time_seconds :=
        match time_seconds with
        | None => Some (end_time - start_time)%Q
        | Some t =>
            if Qle_bool t 0 then Some (end_time - start_time)%Q else Some t
        end in
      expected_text ← gets (fun o => read_text_safe o expected_file);
      expected_available ← gets (fun o => is_file o expected_file);
      let normalized_expected :=
        if expected_available : bool then normalize_text expected_text
        else [] in
      let normalized_actual := normalize_text program_stdout in
      let '(status, message) :=
        if negb (bool_decide (exit_code = 0)) then
          ("RE", "Runtime error (exit code " +:+ pretty exit_code +:+ ")")
        else if negb expected_available then
          ("NO_EXPECTED", "Expected output missing")
        else if bool_decide (normalized_actual = normalized_expected) then
          ("AC", "Accepted")
        else
          let diff :=
            unified_diff H (Py.splitlines expected_text)
              (Py.splitlines program_stdout)
              (Path.name expected_file) "program output" in
          ("WA", "Wrong answer" +:+ nl +:+ Py.join nl (take 20 diff)) in
      mret {| name := Path.name input_file; status := status;
              time_seconds := time_seconds; memory_kb := memory_kb;
              stdout := program_stdout; stderr := program_stderr;
              message := message |}
  end.

Definition find_source (o : OS) (problem_dir : Path) (preferred : string)
    : Res Path :=
  let candidate := Path.div problem_dir preferred in
  if is_file o candidate then Ok candidate
  else
    match sorted (glob o problem_dir ".cpp") with
    | [] =>
        Raise (FileNotFoundError
                 ("No C++ source file found in " +:+ Path.str problem_dir))
    | [f] => Ok f
    | cpp_files =>
        Raise (FileNotFoundError
                 ("Multiple C++ sources found ("
                  +:+ Py.join ", " (map Path.name cpp_files)
                  +:+ "); specify one via --source"))
    end.

(** [result.message.splitlines()[0]] *)
Definition first_line (text : string) : Res string :=
  match Py.splitlines text with
  | l :: _ => Ok l
  | [] => Raise IndexError
  end.

Definition format_result (result : TestResult)
    (time_limit_seconds : option Q) (memory_limit_kb : option Z)
    : Res string :=
  let parts := ["[" +:+ name result +:+ "] " +:+ status result] in
  let parts :=
    match time_seconds result with
    | Some t => parts ++ ["time " +:+ format_fixed H 2 (t * 1000)%Q +:+ " ms"]
    | None => parts
    end in
  let parts :=
    match time_limit_seconds with
    | Some t => parts ++ ["limit " +:+ format_fixed H 0 (t * 1000)%Q +:+ " ms"]
    | None => parts
    end in
  let parts :=
    match memory_kb result with
    | Some m =>
        parts ++ ["mem " +:+ format_fixed H 2 (inject_Z m / 1024)%Q +:+ " MB"]
    | None => parts
    end in
  let parts :=
    match memory_limit_kb with
    | Some m =>
        parts ++ ["mem limit " +:+ format_fixed H 2 (inject_Z m / 1024)%Q
                  +:+ " MB"]
    | None => parts
    end in
  match first_line (message result) with
  | Ok l => Ok (Py.join " | " (parts ++ [l]))
  | Raise e => Raise e
  end.

(** *** Metadata lookup *)

(** Truth value of a record: a dictionary is true when it is not
    empty. *)
Definition info_truthy (r : ProblemInfo) : bool :=
  bool_decide (is_Some (info_pid r))
  || bool_decide (is_Some (info_directory r))
  || bool_decide (is_Some (info_time_limit_ms r))
  || bool_decide (is_Some (info_memory_limit_kb r))
  || bool_decide (is_Some (info_time_limit_human r))
  || bool_decide (is_Some (info_memory_limit_human r))
  || info_other_members r.

(** Truth value of an optional text. *)
Definition opt_truthy (s : option string) : bool :=
  match s with Some t => Py.truthy t | None => false end.

(** [metadata.get(key)] *)
Fixpoint dict_get (metadata : Metadata) (key : string) : option ProblemInfo :=
  match metadata with
  | [] => None
  | (k, v) :: rest => if String.eqb k key then Some v else dict_get rest key
  end.

Definition load_problem_metadata (o : OS) : Metadata :=
  if negb (is_file o (METADATA_PATH H)) then []
  else default [] (json_loads H (read_text o (METADATA_PATH H))).

Definition locate_record_by_pid (metadata : Metadata) (pid : string)
    : option ProblemInfo :=
  match dict_get metadata pid with
  | Some record =>
      if info_truthy record then Some record
      else snd <$> find (fun e => bool_decide (info_pid (snd e) = Some pid))
                        metadata
  | None =>
      snd <$> find (fun e => bool_decide (info_pid (snd e) = Some pid))
                   metadata
  end.

Definition stored_dir_matches (entry : ProblemInfo) (directory_name : string)
    : bool :=
  match info_directory entry with
  | Some stored_dir =>
      Py.truthy stored_dir
      && bool_decide (Path.name (Path.parse stored_dir) = directory_name)
  | None => false
  end.

Definition locate_record_by_directory (metadata : Metadata) (directory : Path)
    : option ProblemInfo :=
  let directory_name := Path.name directory in
  let scan :=
    snd <$> find (fun e => stored_dir_matches (snd e) directory_name) metadata in
  match dict_get metadata directory_name with
  | Some record =>
      if info_truthy record then
        if negb (opt_truthy (info_directory record))
           || stored_dir_matches record directory_name
        then Some record
        else scan
      else scan
  | None => scan
  end.

Definition resolve_problem_directory (o : OS) (pid : string) (base_dir : Path)
    (metadata : Metadata) : Path * option ProblemInfo :=
  let record := locate_record_by_pid metadata pid in
  let fallback := (Path.div base_dir pid, record) in
  match record with
  | Some r =>
      if info_truthy r then
        match info_directory r with
        | Some stored_dir =>
            if Py.truthy stored_dir then
              let candidate := Path.div base_dir stored_dir in
              if exists_path o candidate then (candidate, record)
              else fallback
            else fallback
        | None => fallback
        end
      else fallback
  | None => fallback
  end.

(** *** The orchestrator *)

Definition lift {A} (r : Res A) : M A := fun w => (r, w).

(** Entering [with tempfile.TemporaryDirectory(prefix=...)]. *)
Definition make_temp_dir (prefix : string) : M Path :=
  d ← gets (mkdtemp H prefix);
  modify_os (set_dirs (union {[d]}));;
  mret d.

(** Leaving it: the directory goes with everything below it. *)
Definition outside (d : Path) (p : Path) : Prop := ¬ (d `prefix_of` p).

Definition remove_tree (d : Path) : M unit :=
  modify_os (fun o =>
    set_dirs (filter (outside d))
      (set_files (filter (fun kv => outside d (fst kv))) o)).

(** Truth value of a float. *)
Definition float_truthy (x : Q) : bool := negb (Qeq_bool x 0).

(** [a or b] on texts. *)
Definition str_or (a : option string) (b : string) : string :=
  match a with
  | Some t => if Py.truthy t then t else b
  | None => b
  end.

(** The body of the loop over the test cases, with the flag
    [overall_success] threaded through. *)
Fixpoint run_tests (binary : Path) (effective_timeout : option Q)
    (metadata_timeout : option Q) (metadata_memory : option Z)
    (tests : list (Path * Path)) (overall_success : bool) : M bool :=
  match tests with
  | [] => mret overall_success
  | (input_file, expected_file) :: rest =>
      result ← run_single_test binary input_file expected_file
                 effective_timeout;
      emit (EvResult result);;
      line ← lift (format_result result metadata_timeout metadata_memory);
      print Stdout line;;
      (if bool_decide (status result = "WA") then
         let actual_output := Py.rstrip_char (ascii_of_nat 10) (stdout result) in
         print Stdout "程序输出:";;
         print Stdout
           (if Py.truthy actual_output then actual_output else "<空输出>")
       else mret tt);;
      overall_success ←
        (if bool_decide (status result ≠ "AC") then
           (if Py.truthy (stderr result) then
              print Stderr ("stderr:" +:+ nl +:+ stderr result)
            else mret tt);;
           mret false
         else mret overall_success);
      run_tests binary effective_timeout metadata_timeout metadata_memory
        rest overall_success
  end.

(** The first part of [main], up to the problem directory: either the
    exit code of an early [return], or the directory with its metadata
    record and label. *)
Definition locate_problem (args : Args)
    : M (Z + Path * option ProblemInfo * option string) :=
  metadata ← gets load_problem_metadata;
  let base_dir := resolve H (arg_base_dir args) in
  (if opt_truthy (arg_pid args) then
       let pid := default "" (arg_pid args) in
       '(problem_dir, problem_info) ←
         gets (fun o => resolve_problem_directory o pid base_dir metadata);
       d ← gets (fun o => is_dir o problem_dir);
       if negb d then
         print Stderr ("Problem directory " +:+ Path.str problem_dir
                       +:+ " not found for pid " +:+ pid);;
         mret (inl 1)
       else mret (inr (problem_dir, problem_info, arg_pid args))
     else
       match arg_problem_dir args with
       | Some given =>
           let problem_dir := resolve H given in
           d ← gets (fun o => is_dir o problem_dir);
           if negb d then
             print Stderr ("Problem directory " +:+ Path.str problem_dir
                           +:+ " not found");;
             mret (inl 1)
           else
             let problem_info := locate_record_by_directory metadata problem_dir in
             let pid_label :=
               match problem_info with
               | Some info =>
                   if info_truthy info then info_pid info
                   else Some (Path.name problem_dir)
               | None => Some (Path.name problem_dir)
               end in
             mret (inr (problem_dir, problem_info, pid_label))
       | None =>
           (* parser.error: usage and message on stderr, exit status 2 *)
           print Stderr "Provide a problem directory or specify --pid.";;
           raise (SystemExit 2)
       end).

Definition main (args : Args) : M Z :=
  located ← locate_problem args;
  match located with
  | inl code => mret code
  | inr (problem_dir, problem_info, pid_label) =>
      let pid_label := default (Path.name problem_dir) pid_label in
      print Stdout ("Judging " +:+ pid_label +:+ " @ " +:+ Path.str problem_dir);;
      found ← gets (fun o => find_source o problem_dir (arg_source args));
      match found with
      | Raise (FileNotFoundError msg) => print Stderr msg;; mret 1
      | Raise e => raise e
      | Ok source_file =>
          let info :=
            match problem_info with
            | Some i => if info_truthy i then Some i else None
            | None => None
            end in
          let metadata_timeout :=
            i ← info; ms ← info_time_limit_ms i; Some (ms / 1000)%Q in
          let metadata_memory :=
            i ← info; kb ← info_memory_limit_kb i; Some (int_of_float kb) in
          match info with
          | Some i =>
              let time_desc :=
                str_or (info_time_limit_human i)
                  (match metadata_timeout with
                   | Some t =>
                       if float_truthy t then format_fixed H 2 t +:+ "s"
                       else "未知"
                   | None => "未知"
                   end) in
              let mem_desc :=
                str_or (info_memory_limit_human i)
                  (match metadata_memory with
                   | Some m =>
                       if bool_decide (m ≠ 0)
                       then format_fixed H 2 (inject_Z m / 1024)%Q +:+ "MB"
                       else "未知"
                   | None => "未知"
                   end) in
              let pid_display := str_or (info_pid i) pid_label in
              print Stdout (pid_display +:+ " 限制: 时间 ≤ " +:+ time_desc
                            +:+ ", 内存 ≤ " +:+ mem_desc)
          | None => mret tt
          end;;
          let effective_timeout :=
            match arg_timeout args with
            | Some t => Some t
            | None => metadata_timeout
            end in
          match effective_timeout, arg_timeout args, metadata_timeout with
          | Some _, None, Some t =>
              print Stdout ("使用元数据设定的超时时间 " +:+ format_fixed H 2 t +:+ "s")
          | _, _, _ => mret tt
          end;;
          tests ← gets (fun o => list_tests o problem_dir);
          match tests with
          | [] => print Stdout ("No .in files found in " +:+ Path.str problem_dir)
          | _ => mret tt
          end;;
          build_dir ← make_temp_dir "judge_build_";
          try_finally
            (let binary_path := Path.div build_dir "solution" in
             compile_result ← compile_source source_file binary_path
                                (arg_std args) (arg_cflags args);
             emit (EvCompiled compile_result);;
             print Stdout ("Compile: " +:+ compile_message compile_result
                           +:+ " (" +:+ format_fixed H 2 (elapsed compile_result)
                           +:+ "s)");;
             (if Py.truthy (compile_stdout compile_result)
              then print Stdout (compile_stdout compile_result)
              else mret tt);;
             (if Py.truthy (compile_stderr compile_result)
              then print Stderr (compile_stderr compile_result)
              else mret tt);;
             match success compile_result, binary compile_result with
             | true, Some compiled =>
                 overall_success ←
                   run_tests compiled effective_timeout metadata_timeout
                     metadata_memory tests true;
                 mret (if overall_success : bool then 0 else 2)
             | _, _ => mret 1
             end)
            (remove_tree build_dir)
      end
  end.

End Judge.

(** ** A concrete host for examples

    A host whose children are given by a script: the compiler ends with
    a fixed exit code (and leaves the binary when that is zero), the
    program under test is a function of the text on its standard input,
    and the time wrapper leaves a fixed report in its log. *)

Module Demo.

Record Script := {
  compiler_rc : Z;
  program : string -> Res Completed;
  time_report : string;
  run_seconds : Q;
  peak_rss : Z;
  has_resource : bool;
}.

Definition advance (dt : Q) (rss : Z) (o : OS) : OS :=
  {| files := files o; dirs := dirs o; clock := (clock o + dt)%Q;
     children_maxrss := Z.max (children_maxrss o) rss |}.

Definition run_program (sc : Script) (stdin : option Path) (o : OS)
    : Res Completed * OS :=
  (program sc (from_option (read_text o) "" stdin),
   advance (run_seconds sc) (peak_rss sc) o).

Definition subprocess (sc : Script) (cmd : list string) (stdin : option Path)
    (timeout : option Q) (o : OS) : Res Completed * OS :=
  match cmd with
  | "g++" :: _ =>
      let o' := advance 1 0 o in
      if bool_decide (compiler_rc sc = 0) then
        (Ok {| returncode := 0; out_text := ""; err_text := "" |},
         set_files (insert (Path.parse (nth 11 cmd "")) "ELF") o')
      else
        (Ok {| returncode := compiler_rc sc; out_text := "";
               err_text := "error: compilation terminated" |}, o')
  | "/usr/bin/time" :: "-f" :: _ :: "-o" :: log :: _ =>
      match run_program sc stdin o with
      | (Ok c, o') =>
          (Ok c, set_files (insert (Path.parse log) (time_report sc)) o')
      | (Raise e, o') => (Raise e, o')
      end
  | _ => run_program sc stdin o
  end.

(** Decimal numerals [digits] and [digits.digits], with an optional
    minus sign. *)
Fixpoint digits_value (acc : Z) (s : string) : option Z :=
  match s with
  | "" => Some acc
  | String c s' =>
      match Ascii.is_nat c with
      | Some d => digits_value (10 * acc + Z.of_nat d) s'
      | None => None
      end
  end.

Fixpoint before_dot (s : string) : string * option string :=
  match s with
  | "" => ("", None)
  | String c s' =>
      if Ascii.eqb c "." then ("", Some s')
      else let '(a, b) := before_dot s' in (String c a, b)
  end.

Definition unsigned_float (s : string) : option Q :=
  let '(whole, frac) := before_dot s in
  let frac := default "" frac in
  if (String.length whole + String.length frac =? 0)%nat then None
  else
    w ← digits_value 0 whole;
    f ← digits_value 0 frac;
    Some (inject_Z w + inject_Z f / inject_Z (10 ^ Z.of_nat (String.length frac)))%Q.

Definition parse_decimal (s : string) : option Q :=
  match s with
  | String "-" s' => Qopp <$> unsigned_float s'
  | _ => unsigned_float s
  end.

(** [x] with [n] decimals, rounded half up. *)
Definition pad_left (n : nat) (s : string) : string :=
  String.concat "" (replicate (n - String.length s) "0") +:+ s.

Definition fixed (n : nat) (x : Q) : string :=
  let scale := 10 ^ Z.of_nat n in
  let scaled := Qfloor (Qabs x * inject_Z scale + (1 # 2))%Q in
  let sign := if Qle_bool 0 x then "" else "-" in
  let frac := pad_left n (pretty (scaled mod scale)) in
  sign +:+ pretty (scaled / scale)
  +:+ (match n with O => "" | _ => "." +:+ frac end).

Definition show_float (x : Q) : string :=
  fixed 1 x.

(** A diff that lists every line of [a] as removed and every line of
    [b] as added. *)
Definition replace_diff (a b : list string) (fromfile tofile : string)
    : list string :=
  if bool_decide (a = b) then []
  else ["--- " +:+ fromfile; "+++ " +:+ tofile; "@@ @@"]
       ++ map (String.append "-") a ++ map (String.append "+") b.

Definition host (sc : Script) : Host :=
  {| resource_available := has_resource sc;
     subprocess_run := subprocess sc;
     mkstemp := fun prefix _ => ["/"; "tmp"; prefix +:+ "0"];
     mkdtemp := fun prefix _ => ["/"; "tmp"; prefix +:+ "d"];
     float_of_str := parse_decimal;
     str_of_float := show_float;
     format_fixed := fixed;
     unified_diff := replace_diff;
     decode_replace := id;
     resolve := id;
     METADATA_PATH := ["/"; "judge"; "script"; "luogu_problems.json"];
     json_loads := fun _ => None |}.

(** Programs under test. *)
Definition exits (rc : Z) (out : string) : string -> Res Completed :=
  fun _ => Ok {| returncode := rc; out_text := out; err_text := "" |}.

Definition hangs : string -> Res Completed :=
  fun _ => Raise (TimeoutExpired CapNone CapNone).

Definition script (rc : Z) (prog : string -> Res Completed) (report : string)
    (resource : bool) : Script :=
  {| compiler_rc := rc; program := prog; time_report := report;
     run_seconds := 1 # 4; peak_rss := 2048; has_resource := resource |}.

(** A problem directory [/p] with a source, the case [1] with its
    expected output and the case [2] without one, and the compiled
    binary [/b/solution]. *)
Definition problem_files : gmap Path string :=
  list_to_map
    [ (["/"; "p"; "main.cpp"], "int main(){}");
      (["/"; "p"; "1.in"], "2 3" +:+ nl);
      (["/"; "p"; "1.out"], "5" +:+ nl);
      (["/"; "p"; "2.in"], "4 4" +:+ nl);
      (["/"; "b"; "solution"], "ELF") ].

Definition os_plain : OS :=
  {| files := problem_files;
     dirs := {[ ["/"; "p"]; ["/"; "b"] ]};
     clock := 10; children_maxrss := 5000 |}.

(** The same with [/usr/bin/time] installed. *)
Definition os_timed : OS := set_files (insert TIME_BINARY "ELF") os_plain.

(** The same with the expected output of the case [2]. *)
Definition os_complete : OS :=
  set_files (insert ["/"; "p"; "2.out"] ("8" +:+ nl)) os_timed.


Definition world (o : OS) : World := {| os := o; events := [] |}.

Definition exe : Path := ["/"; "b"; "solution"].
Definition in1 : Path := ["/"; "p"; "1.in"].
Definition out1 : Path := ["/"; "p"; "1.out"].
Definition in2 : Path := ["/"; "p"; "2.in"].
Definition out2 : Path := ["/"; "p"; "2.out"].

(** Hosts: a correct program, one that prints the right answer and exits
    with status 1, one that prints a wrong answer, one that never ends,
    and a compiler that fails. *)
Definition accepting : Host :=
  host (script 0 (exits 0 ("5 " +:+ nl)) "0.25 2048" true).

Definition crashing : Host :=
  host (script 0 (exits 1 ("5" +:+ nl))
          ("Command exited with non-zero status 1" +:+ nl +:+ "0.25 2048") true).

Definition wrong : Host :=
  host (script 0 (exits 0 "6") "0.25 2048" true).

Definition hanging : Host :=
  host (script 0 hangs "" true).

(** A time wrapper whose report carries a negative time and a negative
    memory figure. *)
Definition odd_report : Host :=
  host (script 0 (exits 0 ("5" +:+ nl)) "-1.5 -7" true).

(** A program that adds the two numbers of the cases [1] and [2]. *)
Definition adds : string -> Res Completed :=
  fun text =>
    Ok {| returncode := 0;
          out_text := if String.eqb text ("2 3" +:+ nl) then "5" +:+ nl
                      else "8" +:+ nl;
          err_text := "" |}.

Definition adding : Host := host (script 0 adds "0.25 2048" true).

Definition broken_build : Host :=
  host (script 1 (exits 0 ("5" +:+ nl)) "0.25 2048" true).

(** The child of a run on [input_file] as [run_with_time] returns it,
    and the world it leaves. *)
Definition no_process : CompletedProcess :=
  {| proc := {| returncode := 0; out_text := ""; err_text := "" |};
     time_log_path := None |}.

Definition ended (H : Host) (input_file : Path) (o : OS)
    : CompletedProcess * World :=
  match run_with_time H [Path.str exe] input_file (Some 2%Q) (world o) with
  | (Ok p, w1) => (p, w1)
  | (Raise _, w1) => (no_process, w1)
  end.

Definition args : Args :=
  {| arg_problem_dir := Some ["/"; "p"]; arg_pid := None;
     arg_base_dir := ["/"; "judge"; "problem"]; arg_source := "main.cpp";
     arg_std := "c++17"; arg_timeout := Some 2%Q; arg_cflags := [] |}.

End Demo.

(** ** Vocabulary of the statements *)

(** The world in which [run_single_test] forms its verdict after the
    child [p] ended in [w1]: the log of the time wrapper, if there was
    one, has been removed. *)
Definition verdict_world (p : CompletedProcess) (w1 : World) : World :=
  match time_log_path p with
  | Some log => {| os := set_files (delete log) (os w1); events := events w1 |}
  | None => w1
  end.

(** The input files of the test runs started, the results received and
    the compile results received, each in the order of the log. *)
Definition spawned_inputs (evs : list Event) : list Path :=
  omap (fun e => match e with EvSpawn _ (Some i) => Some i | _ => None end) evs.

Definition results_of (evs : list Event) : list TestResult :=
  omap (fun e => match e with EvResult r => Some r | _ => None end) evs.

Definition compiled_of (evs : list Event) : list CompileResult :=
  omap (fun e => match e with EvCompiled c => Some c | _ => None end) evs.

(** The summary lines printed for results, in the order of the log: a
    result is reported by the line printed right after it is received. *)
Fixpoint reported (evs : list Event) : list (TestResult * string) :=
  match evs with
  | EvResult r :: rest =>
      match rest with
      | EvPrint Stdout line :: _ => (r, line) :: reported rest
      | _ => reported rest
      end
  | _ :: rest => reported rest
  | [] => []
  end.

(** Events that are prints, and steps of the judge that only print and
    then yield [a]. *)
Definition is_print (e : Event) : Prop :=
  match e with EvPrint _ _ => True | _ => False end.

Definition quiet {A} (m : M A) (a : A) : Prop :=
  exists evs, Forall is_print evs
    /\ forall w, exists w', m w = (Ok a, w') /\ os w' = os w
                            /\ events w' = events w ++ evs.

(** The memory figure the specification words describe for the
    fallback path: the growth of the counter, never below zero. *)
Definition clamped_delta (before after : Z) : Z := Z.max 0 (after - before).


(** ** Vocabulary of the further properties *)

(** A text with its whitespace characters deleted, and whether a text
    holds nothing but whitespace. *)
Fixpoint remove_spaces (s : string) : string :=
  match s with
  | "" => ""
  | String c s' =>
      if Py.isspace c then remove_spaces s' else String c (remove_spaces s')
  end.

Fixpoint all_space (s : string) : bool :=
  match s with
  | "" => true
  | String c s' => Py.isspace c && all_space s'
  end.


(** The verdict codes that [run_single_test] writes. *)
Definition verdicts : list string := ["AC"; "WA"; "RE"; "TLE"; "NO_EXPECTED"].

(** The command line [args] with another positional directory. *)
Definition with_problem_dir (d : option Path) (args : Args) : Args :=
  {| arg_problem_dir := d; arg_pid := arg_pid args;
     arg_base_dir := arg_base_dir args; arg_source := arg_source args;
     arg_std := arg_std args; arg_timeout := arg_timeout args;
     arg_cflags := arg_cflags args |}.

(** Inputs of the examples: two metadata records, a host without the
    resource module, the result and the world of a test run, and a
    command line that names a problem by its id. *)
Module Sample.

Definition sum_record : ProblemInfo :=
  {| info_pid := Some "P1001"; info_directory := Some "P1001_sum";
     info_time_limit_ms := Some 1000%Q; info_memory_limit_kb := Some 131072%Q;
     info_time_limit_human := Some "1.00s";
     info_memory_limit_human := Some "128.00MB";
     info_other_members := true |}.

Definition sort_record : ProblemInfo :=
  {| info_pid := Some "P1177"; info_directory := Some "sorting";
     info_time_limit_ms := Some 2000%Q; info_memory_limit_kb := None;
     info_time_limit_human := None; info_memory_limit_human := None;
     info_other_members := false |}.

(** The second record is stored under a key that is not its id. *)
Definition metadata : Metadata :=
  [("P1001", sum_record); ("quick", sort_record)].

Definition bare : Host :=
  Demo.host (Demo.script 0 (Demo.exits 0 ("5" +:+ nl)) "" false).

Definition no_result : TestResult :=
  {| name := ""; status := ""; time_seconds := None; memory_kb := None;
     stdout := ""; stderr := ""; message := "" |}.

Definition result_of (x : Res TestResult * World) : TestResult :=
  match fst x with
  | Ok r => r
  | Raise _ => no_result
  end.

Definition judged (H : Host) (input_file expected_file : Path) (o : OS)
    : Res TestResult * World :=
  run_single_test H Demo.exe input_file expected_file (Some 2%Q) (Demo.world o).

Definition pid_args : Args :=
  {| arg_problem_dir := None; arg_pid := Some "P1001";
     arg_base_dir := ["/"]; arg_source := "main.cpp";
     arg_std := "c++17"; arg_timeout := None; arg_cflags := [] |}.

Definition missing_input : Path := ["/"; "p"; "9.in"].

End Sample.

(** * Properties *)

(** ** Text: tokens and normalization *)

Section TextFacts.

Import Py.

Lemma str_app_cons c s t : String c s +:+ t = String c (s +:+ t).
Proof. reflexivity. Qed.

Lemma str_app_nil_r s : s +:+ "" = s.
Proof. induction s as [|c s IH]; [done|]. by rewrite str_app_cons, IH. Qed.

Lemma str_app_assoc s t u : (s +:+ t) +:+ u = s +:+ (t +:+ u).
Proof. induction s as [|c s IH]; [done|]. by rewrite !str_app_cons, IH. Qed.

Lemma str_app_snoc s c t : (s +:+ String c "") +:+ t = s +:+ String c t.
Proof. by rewrite str_app_assoc. Qed.

Lemma str_app_eq_nil s t : s +:+ t = "" -> s = "" /\ t = "".
Proof. destruct s; [done|]. rewrite str_app_cons. discriminate. Qed.






Lemma split_from_lstrip s : split_from "" (lstrip s) = split_from "" s.
Proof.
  induction s as [|c s IH]; [done|]. simpl.
  destruct (isspace c) eqn:Hsp; [exact IH|].
  simpl. by rewrite Hsp.
Qed.

Lemma split_from_rstrip s : forall cur,
  split_from cur (rstrip s) = split_from cur s.
Proof.
  induction s as [|c s IH]; intros cur; [done|]. simpl.
  destruct (rstrip s) as [|c' t] eqn:Hr.
  - destruct (isspace c) eqn:Hsp; simpl; rewrite ?Hsp.
    + rewrite <- (IH ""). simpl. by rewrite app_nil_r.
    + rewrite <- (IH (cur +:+ String c "")). done.
  - simpl. destruct (isspace c); by rewrite <- IH.
Qed.

Lemma split_strip s : split (strip s) = split s.
Proof. unfold split, strip. by rewrite split_from_rstrip, split_from_lstrip. Qed.





(** Whitespace after the text leaves the tokens as they are. *)
Lemma split_from_trailing s c : forall cur,
  isspace c = true ->
  split_from cur (s +:+ String c "") = split_from cur s.
Proof.
  induction s as [|a s IH]; intros cur Hc.
  - simpl. rewrite Hc. by rewrite app_nil_r.
  - rewrite str_app_cons. simpl. destruct (isspace a); by rewrite IH.
Qed.

(** A run of whitespace counts as one separator. *)
Lemma split_from_run s c c' t : forall cur,
  isspace c = true -> isspace c' = true ->
  split_from cur (s +:+ String c (String c' t))
  = split_from cur (s +:+ String c t).
Proof.
  induction s as [|a s IH]; intros cur Hc Hc'.
  - simpl. by rewrite Hc, Hc'.
  - rewrite !str_app_cons. simpl. destruct (isspace a); by rewrite IH.
Qed.

End TextFacts.




Lemma normalize_text_trailing_newline x :
  normalize_text (x +:+ nl) = normalize_text x.
Proof.
  unfold normalize_text. rewrite !split_strip. by apply split_from_trailing.
Qed.

(** ** One test run that ends *)

Ltac test_unfold :=
  unfold run_single_test, mbind, M_bind, try_except, gets, unlink_quiet,
    modify_os, mret, M_ret; simpl.

Ltac settle_verdict Hc :=
  repeat match type of Hc with
    | context [bool_decide ?P] =>
        first [ rewrite (bool_decide_eq_true_2 P) in Hc by done
              | rewrite (bool_decide_eq_false_2 P) in Hc by done ]
    | context [is_file ?o ?e] =>
        match goal with Hf : is_file o e = _ |- _ => rewrite Hf in Hc end
    end;
  simpl in Hc; by inversion Hc.

Section Completed.

Variable H : Host.
Variables (executable input_file expected_file : Path) (timeout : option Q).
Variables (w w1 : World) (p : CompletedProcess).

(** The executable is there and the child, started in [w], ended and
    left the world [w1]. *)
Hypothesis Hexe : is_file (os w) executable = true.
Hypothesis Hrun :
  run_with_time H [Path.str executable] input_file timeout w = (Ok p, w1).

Lemma completed_result :
  exists r,
    run_single_test H executable input_file expected_file timeout w
    = (Ok r, verdict_world p w1)
    /\ name r = Path.name input_file
    /\ stdout r = out_text (proc p) /\ stderr r = err_text (proc p)
    /\ (returncode (proc p) ≠ 0 ->
        status r = "RE" /\
        message r
        = "Runtime error (exit code " +:+ pretty (returncode (proc p)) +:+ ")")
    /\ (returncode (proc p) = 0 ->
        is_file (os (verdict_world p w1)) expected_file = false ->
        status r = "NO_EXPECTED" /\ message r = "Expected output missing")
    /\ (returncode (proc p) = 0 ->
        is_file (os (verdict_world p w1)) expected_file = true ->
        normalize_text (out_text (proc p))
        = normalize_text (read_text (os (verdict_world p w1)) expected_file) ->
        status r = "AC" /\ message r = "Accepted")
    /\ (returncode (proc p) = 0 ->
        is_file (os (verdict_world p w1)) expected_file = true ->
        normalize_text (out_text (proc p))
        ≠ normalize_text (read_text (os (verdict_world p w1)) expected_file) ->
        status r = "WA")
    /\ (forall log, time_log_path p = Some log ->
        memory_kb r = snd (parse_time_output H (os w1) log) /\
        time_seconds r =
          Some (match fst (parse_time_output H (os w1) log) with
                | Some t =>
                    if Qle_bool t 0 then (clock (os w1) - clock (os w))%Q else t
                | None => (clock (os w1) - clock (os w))%Q
                end))
    /\ (time_log_path p = None ->
        time_seconds r = Some (clock (os w1) - clock (os w))%Q /\
        memory_kb r =
          if resource_available H then
            Some (let delta := children_maxrss (os w1) - children_maxrss (os w) in
                  if bool_decide (0 < delta) then delta
                  else children_maxrss (os w1))
          else None).
Proof.
  test_unfold. rewrite Hexe. simpl. unfold verdict_world.
  destruct (resource_available H); simpl; rewrite Hrun; simpl;
    destruct (time_log_path p) as [log|]; simpl.
  all: try destruct (parse_time_output H (os w1) log) as [ti mi] eqn:Hparse;
    simpl.
  all: unfold read_text_safe.
  all: match goal with
       | |- context [let '(_, _) := ?c in _] =>
           destruct c as [st msg] eqn:Hc
       end.
  all: eexists; split; [reflexivity|]; simpl.
  all: repeat match goal with |- _ /\ _ => split end; try done.
  all: try (intros; settle_verdict Hc).
  all: try (intros log' [= <-]; rewrite Hparse; simpl).
  all: try (split; [done|]).
  all: try (destruct ti as [t|]; [destruct (Qle_bool t 0)|]; done).
  all: intros _; split; try done.
  all: by destruct (Qle_bool _ _).
Qed.

End Completed.


Lemma is_file_verdict_world_false p w1 e :
  is_file (os w1) e = false -> is_file (os (verdict_world p w1)) e = false.
Proof.
  unfold verdict_world, is_file. destruct (time_log_path p) as [log|]; [|done].
  simpl. intros Hf. apply bool_decide_eq_false in Hf.
  apply bool_decide_eq_false. intros [x Hx]. apply Hf.
  apply lookup_delete_Some in Hx as [_ Hx]. by exists x.
Qed.



(** C1 (as amended): a test run that ends with exit code zero while no
    expected-output file exists gets the verdict NO_EXPECTED. *)
Theorem missing_expected_is_reported H executable input_file expected_file
    timeout w w1 p :
  is_file (os w) executable = true ->
  run_with_time H [Path.str executable] input_file timeout w = (Ok p, w1) ->
  returncode (proc p) = 0 ->
  is_file (os w1) expected_file = false ->
  exists r w',
    run_single_test H executable input_file expected_file timeout w = (Ok r, w')
    /\ status r = "NO_EXPECTED" /\ message r = "Expected output missing".
Proof.
  intros Hexe Hrun Hrc Hmiss.
  destruct (completed_result H executable input_file expected_file timeout
              w w1 p Hexe Hrun) as (r & Heq & _ & _ & _ & _ & Hno & _).
  exists r, (verdict_world p w1). split; [exact Heq|].
  apply Hno; [exact Hrc | by apply is_file_verdict_world_false].
Qed.

Lemma missing_expected_is_reported_witness :
  exists r w',
    run_single_test Demo.accepting Demo.exe Demo.in2 Demo.out2 (Some 2%Q)
      (Demo.world Demo.os_timed) = (Ok r, w')
    /\ status r = "NO_EXPECTED" /\ message r = "Expected output missing".
Proof.
  apply (missing_expected_is_reported Demo.accepting Demo.exe Demo.in2
           Demo.out2 (Some 2%Q) (Demo.world Demo.os_timed)
           (snd (Demo.ended Demo.accepting Demo.in2 Demo.os_timed))
           (fst (Demo.ended Demo.accepting Demo.in2 Demo.os_timed)));
    vm_compute; reflexivity.
Defined.

(** C1 (as stated) fails: with no expected-output file and exit code 1
    the verdict is RE, not NO_EXPECTED. *)
Lemma missing_expected_nonzero_exit :
  is_file Demo.os_timed Demo.out2 = false
  /\ fst (run_single_test Demo.crashing Demo.exe Demo.in2 Demo.out2 (Some 2%Q)
            (Demo.world Demo.os_timed))
     = Ok {| name := "2.in"; status := "RE"; time_seconds := Some (1 # 4)%Q;
             memory_kb := None; stdout := "5" +:+ nl; stderr := "";
             message := "Runtime error (exit code 1)" |}.
Proof. split; vm_compute; reflexivity. Qed.

(** C2: a test run that ends with a non-zero exit code gets the verdict
    RE and a message that contains the exit code, whatever the program
    printed and whatever the expected output is. *)
Theorem nonzero_exit_is_runtime_error H executable input_file expected_file
    timeout w w1 p :
  is_file (os w) executable = true ->
  run_with_time H [Path.str executable] input_file timeout w = (Ok p, w1) ->
  returncode (proc p) ≠ 0 ->
  exists r w',
    run_single_test H executable input_file expected_file timeout w = (Ok r, w')
    /\ status r = "RE"
    /\ message r
       = "Runtime error (exit code " +:+ pretty (returncode (proc p)) +:+ ")".
Proof.
  intros Hexe Hrun Hrc.
  destruct (completed_result H executable input_file expected_file timeout
              w w1 p Hexe Hrun) as (r & Heq & _ & _ & _ & Hre & _).
  exists r, (verdict_world p w1). split; [exact Heq|]. by apply Hre.
Qed.

(** The program prints exactly the expected text and exits with 1. *)
Lemma nonzero_exit_is_runtime_error_witness :
  exists r w',
    run_single_test Demo.crashing Demo.exe Demo.in1 Demo.out1 (Some 2%Q)
      (Demo.world Demo.os_timed) = (Ok r, w')
    /\ status r = "RE"
    /\ message r
       = "Runtime error (exit code "
         +:+ pretty (returncode
                       (proc (fst (Demo.ended Demo.crashing Demo.in1
                                     Demo.os_timed))))
         +:+ ")".
Proof.
  apply (nonzero_exit_is_runtime_error Demo.crashing Demo.exe Demo.in1
           Demo.out1 (Some 2%Q) (Demo.world Demo.os_timed)
           (snd (Demo.ended Demo.crashing Demo.in1 Demo.os_timed))
           (fst (Demo.ended Demo.crashing Demo.in1 Demo.os_timed)));
    [vm_compute; reflexivity | vm_compute; reflexivity
    | vm_compute; discriminate].
Defined.




(** The scenarios of the verdicts, evaluated. *)
Example scenario_accepted :
  fst (run_single_test Demo.accepting Demo.exe Demo.in1 Demo.out1 (Some 2%Q)
         (Demo.world Demo.os_timed))
  = Ok {| name := "1.in"; status := "AC"; time_seconds := Some (25 # 100)%Q;
          memory_kb := Some 2048; stdout := "5 " +:+ nl; stderr := "";
          message := "Accepted" |}.
Proof. vm_compute. reflexivity. Qed.

Example scenario_wrong_answer :
  status <$> (match fst (run_single_test Demo.wrong Demo.exe Demo.in1 Demo.out1
                           (Some 2%Q) (Demo.world Demo.os_timed)) with
              | Ok r => Some r
              | Raise _ => None
              end)
  = Some "WA".
Proof. vm_compute. reflexivity. Qed.

(** ** One test run that exceeds the timeout *)

(** C10: when the run of the child exceeds the timeout, the result has
    the status TLE, the configured timeout as its time, no memory figure
    and a message that states the timeout; it is the same result for
    every expected-output file, so that no comparison takes part in
    it. *)
Theorem timeout_is_TLE H executable input_file timeout w w1 out err :
  is_file (os w) executable = true ->
  run_with_time H [Path.str executable] input_file timeout w
  = (Raise (TimeoutExpired out err), w1) ->
  exists r,
    (forall expected_file,
       run_single_test H executable input_file expected_file timeout w
       = (Ok r, w1))
    /\ status r = "TLE"
    /\ time_seconds r = timeout
    /\ memory_kb r = None
    /\ message r = "Timeout after " +:+ str_of_timeout H timeout +:+ " seconds".
Proof.
  intros Hexe Hrun. eexists. split.
  - intros expected_file. test_unfold. rewrite Hexe. simpl.
    destruct (resource_available H); simpl; rewrite Hrun; reflexivity.
  - repeat split.
Qed.

Lemma timeout_is_TLE_witness :
  exists r,
    (forall expected_file,
       run_single_test Demo.hanging Demo.exe Demo.in1 expected_file (Some 2%Q)
         (Demo.world Demo.os_timed)
       = (Ok r, snd (run_with_time Demo.hanging [Path.str Demo.exe] Demo.in1
                       (Some 2%Q) (Demo.world Demo.os_timed))))
    /\ status r = "TLE"
    /\ time_seconds r = Some 2%Q
    /\ memory_kb r = None
    /\ message r
       = "Timeout after " +:+ str_of_timeout Demo.hanging (Some 2%Q)
         +:+ " seconds".
Proof.
  apply (timeout_is_TLE Demo.hanging Demo.exe Demo.in1 (Some 2%Q)
           (Demo.world Demo.os_timed) _ CapNone CapNone);
    vm_compute; reflexivity.
Defined.


(** ** Measurements *)

Lemma run_with_time_no_log H command stdin timeout w p w1 :
  is_file (os w) TIME_BINARY = false ->
  run_with_time H command stdin timeout w = (Ok p, w1) ->
  time_log_path p = None.
Proof.
  unfold run_with_time, mbind, M_bind, gets. simpl. intros ->. simpl.
  destruct (open_read stdin w) as [[[]|e] w0]; [|discriminate].
  destruct (run_process H command (Some stdin) timeout w0) as [[c|e] w2];
    [|discriminate].
  simpl. by intros [= <- _].
Qed.

(** C6 (as amended): on the fallback path (no time binary, resource
    module present) the memory figure of a run that ends is the growth
    of the children's [ru_maxrss] counter over the run when that growth
    is positive, and otherwise the counter itself as read after the
    run. *)
Theorem fallback_memory H executable input_file expected_file timeout w w1 p :
  is_file (os w) executable = true ->
  run_with_time H [Path.str executable] input_file timeout w = (Ok p, w1) ->
  is_file (os w) TIME_BINARY = false ->
  resource_available H = true ->
  exists r w',
    run_single_test H executable input_file expected_file timeout w = (Ok r, w')
    /\ memory_kb r
       = Some (if bool_decide
                    (0 < children_maxrss (os w1) - children_maxrss (os w))
               then children_maxrss (os w1) - children_maxrss (os w)
               else children_maxrss (os w1)).
Proof.
  intros Hexe Hrun Hbin Hres.
  destruct (completed_result H executable input_file expected_file timeout
              w w1 p Hexe Hrun) as (r & Heq & _ & _ & _ & _ & _ & _ & _ & _ & Hfb).
  exists r, (verdict_world p w1). split; [exact Heq|].
  destruct (Hfb (run_with_time_no_log _ _ _ _ _ _ _ Hbin Hrun)) as [_ Hm].
  by rewrite Hres in Hm.
Qed.

Lemma fallback_memory_witness :
  exists r w',
    run_single_test Demo.accepting Demo.exe Demo.in1 Demo.out1 (Some 2%Q)
      (Demo.world Demo.os_plain) = (Ok r, w')
    /\ memory_kb r
       = Some (if bool_decide
                    (0 < children_maxrss
                           (os (snd (Demo.ended Demo.accepting Demo.in1
                                       Demo.os_plain)))
                         - children_maxrss (os (Demo.world Demo.os_plain)))
               then children_maxrss
                      (os (snd (Demo.ended Demo.accepting Demo.in1
                                  Demo.os_plain)))
                    - children_maxrss (os (Demo.world Demo.os_plain))
               else children_maxrss
                      (os (snd (Demo.ended Demo.accepting Demo.in1
                                  Demo.os_plain)))).
Proof.
  apply (fallback_memory Demo.accepting Demo.exe Demo.in1 Demo.out1 (Some 2%Q)
           (Demo.world Demo.os_plain)
           (snd (Demo.ended Demo.accepting Demo.in1 Demo.os_plain))
           (fst (Demo.ended Demo.accepting Demo.in1 Demo.os_plain)));
    vm_compute; reflexivity.
Defined.

(** C6 (as stated) fails: the counter stands at 5000 before and after
    the run, so the growth is 0, and the memory figure is 5000. *)
Lemma fallback_memory_not_clamped_delta :
  is_file Demo.os_plain TIME_BINARY = false
  /\ resource_available Demo.accepting = true
  /\ children_maxrss Demo.os_plain = 5000
  /\ children_maxrss
       (os (snd (Demo.ended Demo.accepting Demo.in1 Demo.os_plain))) = 5000
  /\ clamped_delta 5000 5000 = 0
  /\ fst (run_single_test Demo.accepting Demo.exe Demo.in1 Demo.out1 (Some 2%Q)
            (Demo.world Demo.os_plain))
     = Ok {| name := "1.in"; status := "AC"; time_seconds := Some (1 # 4)%Q;
             memory_kb := Some 5000; stdout := "5 " +:+ nl; stderr := "";
             message := "Accepted" |}.
Proof. repeat split; vm_compute; reflexivity. Qed.

(** C7: the time of a result of a run that ends is present and not
    negative (the clock does not run backwards); when the time wrapper
    reports no time, or one that is zero or negative, it is the
    difference of the clock readings around the run; the memory figure
    is what the wrapper reports, whatever that is, and without a wrapper
    it is the figure taken from the children's counter (or absent): no
    other value is ever put in its place. *)
Theorem time_falls_back_memory_does_not H executable input_file expected_file
    timeout w w1 p :
  is_file (os w) executable = true ->
  run_with_time H [Path.str executable] input_file timeout w = (Ok p, w1) ->
  (clock (os w) <= clock (os w1))%Q ->
  exists r w',
    run_single_test H executable input_file expected_file timeout w = (Ok r, w')
    /\ (exists t, time_seconds r = Some t /\ (0 <= t)%Q)
    /\ (forall log, time_log_path p = Some log ->
        (fst (parse_time_output H (os w1) log) = None
         \/ (exists t, fst (parse_time_output H (os w1) log) = Some t
                       /\ (t <= 0)%Q) ->
         time_seconds r = Some (clock (os w1) - clock (os w))%Q)
        /\ memory_kb r = snd (parse_time_output H (os w1) log))
    /\ (time_log_path p = None ->
        memory_kb r
        = if resource_available H then
            Some (if bool_decide
                       (0 < children_maxrss (os w1) - children_maxrss (os w))
                  then children_maxrss (os w1) - children_maxrss (os w)
                  else children_maxrss (os w1))
          else None).
Proof.
  intros Hexe Hrun Hclock.
  assert (0 <= clock (os w1) - clock (os w))%Q as Hwall.
  { by apply (proj1 (Qle_minus_iff _ _)). }
  destruct (completed_result H executable input_file expected_file timeout
              w w1 p Hexe Hrun) as (r & Heq & _ & _ & _ & _ & _ & _ & _ & Hlog & Hfb).
  exists r, (verdict_world p w1). split; [exact Heq|]. split.
  - destruct (time_log_path p) as [log|] eqn:Hp.
    + destruct (Hlog log eq_refl) as [_ ->].
      destruct (fst (parse_time_output H (os w1) log)) as [t|]; [|by eexists].
      destruct (Qle_bool t 0) eqn:Ht; [by eexists|].
      exists t. split; [done|].
      apply Qlt_le_weak, Qnot_le_lt. intros Hle.
      apply Qle_bool_iff in Hle. congruence.
    + destruct (Hfb eq_refl) as [-> _]. by eexists.
  - split.
    + intros log Hp. destruct (Hlog log Hp) as [Hm Ht]. split; [|exact Hm].
      intros [Hnone | (t & Hsome & Hle)]; rewrite Ht.
      * by rewrite Hnone.
      * rewrite Hsome. apply Qle_bool_iff in Hle. by rewrite Hle.
    + intros Hnone. by destruct (Hfb Hnone) as [_ ->].
Qed.

Lemma time_falls_back_memory_does_not_witness :
  exists r w',
    run_single_test Demo.odd_report Demo.exe Demo.in1 Demo.out1 (Some 2%Q)
      (Demo.world Demo.os_timed) = (Ok r, w')
    /\ (exists t, time_seconds r = Some t /\ (0 <= t)%Q)
    /\ (forall log,
        time_log_path (fst (Demo.ended Demo.odd_report Demo.in1 Demo.os_timed))
        = Some log ->
        (fst (parse_time_output Demo.odd_report
                (os (snd (Demo.ended Demo.odd_report Demo.in1 Demo.os_timed)))
                log) = None
         \/ (exists t,
               fst (parse_time_output Demo.odd_report
                      (os (snd (Demo.ended Demo.odd_report Demo.in1
                                  Demo.os_timed))) log) = Some t
               /\ (t <= 0)%Q) ->
         time_seconds r
         = Some (clock (os (snd (Demo.ended Demo.odd_report Demo.in1
                                   Demo.os_timed)))
                 - clock (os (Demo.world Demo.os_timed)))%Q)
        /\ memory_kb r
           = snd (parse_time_output Demo.odd_report
                    (os (snd (Demo.ended Demo.odd_report Demo.in1
                                Demo.os_timed))) log))
    /\ (time_log_path (fst (Demo.ended Demo.odd_report Demo.in1 Demo.os_timed))
        = None ->
        memory_kb r
        = if resource_available Demo.odd_report then
            Some (if bool_decide
                       (0 < children_maxrss
                              (os (snd (Demo.ended Demo.odd_report Demo.in1
                                          Demo.os_timed)))
                            - children_maxrss (os (Demo.world Demo.os_timed)))
                  then children_maxrss
                         (os (snd (Demo.ended Demo.odd_report Demo.in1
                                     Demo.os_timed)))
                       - children_maxrss (os (Demo.world Demo.os_timed))
                  else children_maxrss
                         (os (snd (Demo.ended Demo.odd_report Demo.in1
                                     Demo.os_timed))))
          else None).
Proof.
  apply (time_falls_back_memory_does_not Demo.odd_report Demo.exe Demo.in1
           Demo.out1 (Some 2%Q) (Demo.world Demo.os_timed)
           (snd (Demo.ended Demo.odd_report Demo.in1 Demo.os_timed))
           (fst (Demo.ended Demo.odd_report Demo.in1 Demo.os_timed)));
    [vm_compute; reflexivity | vm_compute; reflexivity
    | vm_compute; discriminate].
Defined.

(** The wrapper reports [-1.5 -7]: the time is replaced by the quarter of
    a second the clock advanced, the memory figure stays [-7]. *)
Example negative_report_evaluated :
  fst (run_single_test Demo.odd_report Demo.exe Demo.in1 Demo.out1 (Some 2%Q)
         (Demo.world Demo.os_timed))
  = Ok {| name := "1.in"; status := "AC"; time_seconds := Some (1 # 4)%Q;
          memory_kb := Some (-7); stdout := "5" +:+ nl; stderr := "";
          message := "Accepted" |}.
Proof. vm_compute. reflexivity. Qed.

(** ** The log of the time wrapper *)

(** When the run ends, the log is gone from the world that
    [run_single_test] leaves, whether or not it could be parsed. *)
Lemma time_log_removed_when_run_ends H executable input_file expected_file
    timeout w w1 p log :
  is_file (os w) executable = true ->
  run_with_time H [Path.str executable] input_file timeout w = (Ok p, w1) ->
  time_log_path p = Some log ->
  exists r w',
    run_single_test H executable input_file expected_file timeout w = (Ok r, w')
    /\ is_file (os w') log = false.
Proof.
  intros Hexe Hrun Hlog.
  destruct (completed_result H executable input_file expected_file timeout
              w w1 p Hexe Hrun) as (r & Heq & _).
  exists r, (verdict_world p w1). split; [exact Heq|].
  unfold verdict_world. rewrite Hlog. unfold is_file. simpl.
  apply bool_decide_eq_false. rewrite lookup_delete_eq. by intros [? ?].
Qed.

(** C5 fails on the timeout path: before the run there is no file
    [/tmp/judge_time_0]; the run exceeds the timeout, the result is TLE,
    and the file that [run_with_time] made for the wrapper is still
    there in the world that [run_single_test] leaves. *)
Theorem time_log_left_after_timeout :
  is_file Demo.os_timed ["/"; "tmp"; "judge_time_0"] = false
  /\ fst (run_single_test Demo.hanging Demo.exe Demo.in1 Demo.out1 (Some 2%Q)
            (Demo.world Demo.os_timed))
     = Ok {| name := "1.in"; status := "TLE"; time_seconds := Some 2%Q;
             memory_kb := None; stdout := ""; stderr := "";
             message := "Timeout after 2.0 seconds" |}
  /\ is_file
       (os (snd (run_single_test Demo.hanging Demo.exe Demo.in1 Demo.out1
                   (Some 2%Q) (Demo.world Demo.os_timed))))
       ["/"; "tmp"; "judge_time_0"] = true.
Proof. repeat split; vm_compute; reflexivity. Qed.

(** ** Compilation *)

(** C8: when the compiler process ends, with whatever exit code,
    [compile_source] returns a result and does not raise; a non-zero exit
    code gives [success = false]; and the binary of a returned result is
    [None] exactly when [success] is false. *)
Theorem compile_source_returns_result H source output std extra_flags w c o' :
  subprocess_run H (compile_command source output std extra_flags) None None
    (os w) = (Ok c, o') ->
  exists r w',
    compile_source H source output std extra_flags w = (Ok r, w')
    /\ (returncode c ≠ 0 -> success r = false)
    /\ (returncode c = 0 -> success r = true /\ binary r = Some output)
    /\ (binary r = None <-> success r = false)
    /\ (forall r' w'',
          compile_source H source output std extra_flags w = (Ok r', w'') ->
          (binary r' = None <-> success r' = false)).
Proof.
  intros Hrun.
  unfold compile_source, run_process, host_run, emit, mbind, M_bind, gets,
    mret, M_ret. simpl. rewrite Hrun. simpl.
  eexists. eexists. split; [reflexivity|]. simpl.
  assert (forall b : bool,
            (if b then Some output else None) = None <-> b = false) as Hiff.
  { intros []; split; congruence. }
  split; [intros Hne; by apply bool_decide_eq_false|].
  split; [intros Hz; by rewrite bool_decide_eq_true_2|].
  split; [apply Hiff|].
  intros r' w'' [= <- _]. simpl. apply Hiff.
Qed.

Lemma compile_source_returns_result_witness :
  exists r w',
    compile_source Demo.broken_build ["/"; "p"; "main.cpp"]
      ["/"; "b"; "solution"] "c++17" [] (Demo.world Demo.os_plain) = (Ok r, w')
    /\ (returncode
          {| returncode := 1; out_text := "";
             err_text := "error: compilation terminated" |} ≠ 0 ->
        success r = false)
    /\ (returncode
          {| returncode := 1; out_text := "";
             err_text := "error: compilation terminated" |} = 0 ->
        success r = true /\ binary r = Some ["/"; "b"; "solution"])
    /\ (binary r = None <-> success r = false)
    /\ (forall r' w'',
          compile_source Demo.broken_build ["/"; "p"; "main.cpp"]
            ["/"; "b"; "solution"] "c++17" [] (Demo.world Demo.os_plain)
          = (Ok r', w'') ->
          (binary r' = None <-> success r' = false)).
Proof.
  apply (compile_source_returns_result Demo.broken_build ["/"; "p"; "main.cpp"]
           ["/"; "b"; "solution"] "c++17" [] (Demo.world Demo.os_plain)
           {| returncode := 1; out_text := "";
              err_text := "error: compilation terminated" |}
           (Demo.advance 1 0 Demo.os_plain)).
  vm_compute. reflexivity.
Defined.

Example failed_compile_evaluated :
  fst (compile_source Demo.broken_build ["/"; "p"; "main.cpp"]
         ["/"; "b"; "solution"] "c++17" [] (Demo.world Demo.os_plain))
  = Ok {| success := false; compile_message := "Compilation failed";
          compile_stdout := "";
          compile_stderr := "error: compilation terminated";
          elapsed := 1; binary := None |}.
Proof. vm_compute. reflexivity. Qed.

(** ** Enumeration of the test cases *)



Global Instance path_le_total : Total Path.le.
Proof.
  intros p. unfold Path.le.
  induction p as [|a p IH]; intros [|b q]; simpl; auto.
  rewrite (String.compare_antisym b a).
  destruct (String.compare a b); simpl; auto.
Qed.








(** Substitution of the extension in a name. *)








(** ** Steps of the state monad *)

Lemma bind_inv {A B} (m : M A) (f : A -> M B) w r w' :
  (m ≫= f) w = (r, w') ->
  (exists a w1, m w = (Ok a, w1) /\ f a w1 = (r, w'))
  \/ (exists e, m w = (Raise e, w') /\ r = Raise e).
Proof.
  unfold mbind, M_bind. destruct (m w) as [[a|e] w1]; intros Heq.
  - left. by exists a, w1.
  - right. exists e. by inversion Heq.
Qed.

Lemma gets_inv {A} (f : OS -> A) w r w' :
  gets f w = (r, w') -> r = Ok (f (os w)) /\ w' = w.
Proof. by intros [= <- <-]. Qed.

Lemma emit_inv e w r w' :
  emit e w = (r, w') ->
  r = Ok tt /\ os w' = os w /\ events w' = events w ++ [e].
Proof. by intros [= <- <-]. Qed.

Lemma mret_inv {A} (a : A) w r w' :
  (mret a : M A) w = (r, w') -> r = Ok a /\ w' = w.
Proof. by intros [= <- <-]. Qed.

Lemma modify_os_inv f w r w' :
  modify_os f w = (r, w') ->
  r = Ok tt /\ os w' = f (os w) /\ events w' = events w.
Proof. by intros [= <- <-]. Qed.

Lemma host_run_inv H cmd stdin timeout w r w' :
  host_run H cmd stdin timeout w = (r, w') -> events w' = events w.
Proof.
  unfold host_run.
  destruct (subprocess_run H cmd stdin timeout (os w)) as [r0 o'].
  by intros [= _ <-].
Qed.

Lemma run_process_inv H cmd stdin timeout w r w' :
  run_process H cmd stdin timeout w = (r, w') ->
  events w' = events w ++ [EvSpawn cmd stdin].
Proof.
  unfold run_process. intros Hb.
  apply bind_inv in Hb as [(a & w1 & He & Hh) | (e & He & _)].
  - apply emit_inv in He as (_ & _ & He). apply host_run_inv in Hh. congruence.
  - by apply emit_inv in He as [? _].
Qed.

Lemma open_read_inv p w r w' :
  open_read p w = (r, w') ->
  w' = w /\ (r = Ok tt \/ exists e, r = Raise e
                                   /\ forall out err, e ≠ TimeoutExpired out err).
Proof.
  unfold open_read, mbind, M_bind, gets, raise. simpl.
  destruct (is_file (os w) p); [|destruct (is_dir (os w) p)];
    intros [= <- <-]; (split; [done|]); eauto.
Qed.

Lemma make_temp_file_inv H prefix w r w' :
  make_temp_file H prefix w = (r, w') ->
  (exists p, r = Ok p) /\ events w' = events w.
Proof.
  unfold make_temp_file, mbind, M_bind, gets, modify_os. simpl.
  intros [= <- <-]. eauto.
Qed.

(** What a test run adds to the log: the start of its child, unless an
    error other than the timeout came before that start. *)
Lemma run_with_time_events H command stdin timeout w r w' :
  run_with_time H command stdin timeout w = (r, w') ->
  (exists cmd, events w' = events w ++ [EvSpawn cmd (Some stdin)])
  \/ (events w' = events w
      /\ exists e, r = Raise e /\ forall out err, e ≠ TimeoutExpired out err).
Proof.
  unfold run_with_time. intros Hb.
  apply bind_inv in Hb as [(tb & w1 & Hg & Hb) | (e & Hg & _)];
    [|by apply gets_inv in Hg as [? _]].
  apply gets_inv in Hg as [_ ->].
  apply bind_inv in Hb as [([log cmd] & w2 & Hsel & Hb) | (e & Hsel & _)].
  - assert (events w2 = events w) as Hev2.
    { destruct tb.
      - apply bind_inv in Hsel as [(t & w3 & Ht & Hm) | (e & Ht & _)].
        + apply make_temp_file_inv in Ht as [_ Ht].
          apply mret_inv in Hm as [_ ->]. exact Ht.
        + by apply make_temp_file_inv in Ht as [[? ?] _].
      - by apply mret_inv in Hsel as [_ ->]. }
    apply bind_inv in Hb as [([] & w3 & Ho & Hb) | (e & Ho & ->)].
    + apply open_read_inv in Ho as [-> _].
      apply bind_inv in Hb as [(c & w4 & Hr & Hm) | (e & Hr & ->)].
      * apply run_process_inv in Hr. apply mret_inv in Hm as [_ ->].
        left. exists cmd. congruence.
      * apply run_process_inv in Hr. left. exists cmd. congruence.
    + apply open_read_inv in Ho as [-> [? | (e' & [= <-] & Hne)]]; [done|].
      right. split; [done|]. eauto.
  - destruct tb.
    + apply bind_inv in Hsel as [(t & w3 & Ht & Hm) | (e' & Ht & _)].
      * by apply mret_inv in Hm as [? _].
      * by apply make_temp_file_inv in Ht as [[? ?] _].
    + by apply mret_inv in Hsel as [? _].
Qed.

(** ** The log of the orchestrator *)

Lemma splitlines_from_nonempty s : forall cur,
  cur ≠ "" -> Py.splitlines_from cur s ≠ [].
Proof.
  induction s as [|c s IH]; intros cur Hne; simpl.
  - by destruct cur.
  - destruct (Py.islinebreak c); [done|].
    apply IH. intros [? _]%str_app_eq_nil. done.
Qed.

Lemma first_line_starts c s t :
  Py.islinebreak c = false -> exists l, first_line (String c s +:+ t) = Ok l.
Proof.
  intros Hc. unfold first_line, Py.splitlines. rewrite str_app_cons. simpl.
  rewrite Hc.
  destruct (Py.splitlines_from ("" +:+ String c "") (s +:+ t)) as [|l ls] eqn:Hs.
  - by apply splitlines_from_nonempty in Hs.
  - by exists l.
Qed.

Lemma first_line_literal c s :
  Py.islinebreak c = false -> exists l, first_line (String c s) = Ok l.
Proof.
  intros Hc. rewrite <- (str_app_nil_r (String c s)). by apply first_line_starts.
Qed.

Lemma run_single_test_message H exe inp exp t w r w' :
  run_single_test H exe inp exp t w = (Ok r, w') ->
  exists l, first_line (message r) = Ok l.
Proof.
  test_unfold. destruct (is_file (os w) exe); simpl; [|done].
  destruct (resource_available H); simpl;
  destruct (run_with_time H [Path.str exe] inp t w) as [[p|e] w1]; simpl.
  all: try (destruct e; try done; intros [= <- _]; simpl; by apply first_line_starts).
  all: destruct (time_log_path p) as [log|]; simpl.
  all: try destruct (parse_time_output H (os w1) log) as [ti mi]; simpl.
  all: match goal with
       | |- context [let '(_, _) := ?c in _] =>
           destruct c as [st msg] eqn:Hc
       end.
  all: intros [= <- _]; simpl.
  all: repeat match type of Hc with
         | context [if ?b then _ else _] => destruct b
         end; inversion Hc; subst.
  all: first [by apply first_line_starts | by apply first_line_literal].
Qed.

Lemma try_except_inv {A} (body : M A) handler w r w' :
  try_except body handler w = (r, w') ->
  (exists a, body w = (Ok a, w') /\ r = Ok a)
  \/ (exists e w1, body w = (Raise e, w1)
      /\ match handler e with
         | Some h => h w1 = (r, w')
         | None => r = Raise e /\ w' = w1
         end).
Proof.
  unfold try_except. destruct (body w) as [[a|e] w1].
  - intros [= <- <-]. left. by exists a.
  - intros Hh. right. exists e, w1. split; [done|].
    destruct (handler e); [done|]. by inversion Hh.
Qed.

Lemma run_single_test_events H exe inp exp t w r w' :
  run_single_test H exe inp exp t w = (Ok r, w') ->
  (exists cmd, events w' = events w ++ [EvSpawn cmd (Some inp)])
  /\ name r = Path.name inp.
Proof.
  intros Hrun.
  destruct (is_file (os w) exe) eqn:Hexe.
  2:{ revert Hrun. test_unfold. by rewrite Hexe. }
  destruct (run_with_time H [Path.str exe] inp t w) as [[p|e] w1] eqn:Hrw.
  - destruct (completed_result H exe inp exp t w w1 p Hexe Hrw)
      as (r0 & Heq & Hname & _).
    rewrite Heq in Hrun. injection Hrun as <- <-.
    split; [|done].
    apply run_with_time_events in Hrw as [Hev | [_ (e & [=] & _)]].
    unfold verdict_world. by destruct (time_log_path p).
  - pose proof Hrw as Hev. apply run_with_time_events in Hev.
    revert Hrun. test_unfold. rewrite Hexe. simpl.
    destruct (resource_available H); simpl; rewrite Hrw; simpl.
    all: destruct e; try done; intros [= <- <-]; simpl.
    all: split; [|done].
    all: destruct Hev as [Hev | [_ (e & [= <-] & Hne)]]; [done|].
    all: by destruct (Hne out err).
Qed.

Lemma run_single_test_events_any H exe inp exp t w out w' :
  run_single_test H exe inp exp t w = (out, w') ->
  events w' = events w
  \/ exists cmd, events w' = events w ++ [EvSpawn cmd (Some inp)].
Proof.
  destruct out as [r|e].
  { intros Hrun. right. by apply run_single_test_events in Hrun as [? _]. }
  test_unfold. destruct (is_file (os w) exe); simpl.
  2:{ intros [= _ <-]. by left. }
  destruct (resource_available H); simpl.
  all: destruct (run_with_time H [Path.str exe] inp t w) as [[p|e'] w1] eqn:Hrw;
    simpl.
  all: try (destruct (time_log_path p) as [log|]; simpl;
            try destruct (parse_time_output H (os w1) log) as [ti mi]; simpl;
            match goal with
            | |- context [let '(_, _) := ?c in _] => by destruct c
            end).
  all: apply run_with_time_events in Hrw.
  all: destruct e'; try done; intros [= _ <-].
  all: destruct Hrw as [Hev | [Hev _]]; eauto.
Qed.

Lemma reported_prints evs rest :
  Forall is_print evs -> reported (evs ++ rest) = reported rest.
Proof. induction 1 as [|[] evs He _ IH]; simpl; done. Qed.


Lemma quiet_ret {A} (a : A) : quiet (mret a) a.
Proof.
  exists []. split; [constructor|]. intros w. exists w.
  by rewrite app_nil_r.
Qed.

Lemma quiet_print to text : quiet (print to text) tt.
Proof.
  exists [EvPrint to text]. split; [by repeat constructor|].
  intros w. eexists. split; [reflexivity|]. done.
Qed.

Lemma quiet_bind {A B} (m : M A) (f : A -> M B) a b :
  quiet m a -> quiet (f a) b -> quiet (m ≫= f) b.
Proof.
  intros (evs1 & Hp1 & H1) (evs2 & Hp2 & H2).
  exists (evs1 ++ evs2). split; [by apply Forall_app|].
  intros w. destruct (H1 w) as (w1 & E1 & Ho1 & He1).
  destruct (H2 w1) as (w2 & E2 & Ho2 & He2).
  exists w2. unfold mbind, M_bind. rewrite E1. split; [exact E2|].
  split; [congruence|]. rewrite He2, He1. by rewrite app_assoc.
Qed.

Lemma quiet_inv {A} (m : M A) a w r w' :
  quiet m a -> m w = (r, w') ->
  r = Ok a /\ os w' = os w
  /\ exists evs, Forall is_print evs /\ events w' = events w ++ evs.
Proof.
  intros (evs & Hp & Hq) Hm. destruct (Hq w) as (w1 & E & Ho & He).
  rewrite E in Hm. injection Hm as <- <-. eauto.
Qed.

Lemma prints_spawned evs : Forall is_print evs -> spawned_inputs evs = [].
Proof. induction 1 as [|[] evs He _ IH]; simpl; done. Qed.

Lemma prints_results evs : Forall is_print evs -> results_of evs = [].
Proof. induction 1 as [|[] evs He _ IH]; simpl; done. Qed.

Lemma prints_compiled evs : Forall is_print evs -> compiled_of evs = [].
Proof. induction 1 as [|[] evs He _ IH]; simpl; done. Qed.

Lemma lift_inv {A} (x : Res A) w r w' : lift x w = (r, w') -> r = x /\ w' = w.
Proof. by intros [= <- <-]. Qed.

Lemma format_result_ok H r mt mm l :
  first_line (message r) = Ok l ->
  exists line, format_result H r mt mm = Ok line.
Proof. unfold format_result. intros ->. eauto. Qed.

Section Loop.
Variable H : Host.
Variables (binary : Path) (timeout mt : option Q) (mm : option Z).

Lemma run_tests_trace tests : forall ov w out w',
  run_tests H binary timeout mt mm tests ov w = (out, w') ->
  exists new,
    events w' = events w ++ new
    /\ compiled_of new = []
    /\ map fst (reported new) = results_of new
    /\ Forall (fun rl => format_result H (fst rl) mt mm = Ok (snd rl))
         (reported new)
    /\ match out with
       | Ok b =>
           spawned_inputs new = map fst tests
           /\ map name (results_of new) = map (fun t => Path.name (fst t)) tests
           /\ b = ov && forallb (fun r => bool_decide (status r = "AC"))
                          (results_of new)
       | Raise _ => (length (results_of new) < length tests)%nat
       end.
Proof.
  induction tests as [|[inp exp] tests IH]; intros ov w out w' Hrun.
  - apply mret_inv in Hrun as [-> ->]. exists []. rewrite app_nil_r.
    repeat split; try done. by rewrite andb_true_r.
  - simpl in Hrun.
    apply bind_inv in Hrun as [(r & w1 & Ht & Hb) | (e & Ht & ->)].
    2:{ apply run_single_test_events_any in Ht as [Hev | [cmd Hev]].
        + exists []. rewrite app_nil_r. repeat split; try done. simpl. lia.
        + eexists. split; [exact Hev|]. repeat split; try done. simpl. lia. }
    destruct (run_single_test_message _ _ _ _ _ _ _ _ Ht) as [l Hl].
    destruct (format_result_ok H r mt mm l Hl) as [line Hline].
    apply run_single_test_events in Ht as [[cmd Hev1] Hname].
    apply bind_inv in Hb as [([] & w2 & He & Hb) | (e & He & _)];
      [|by apply emit_inv in He as [? _]].
    apply emit_inv in He as (_ & _ & Hev2).
    apply bind_inv in Hb as [(line' & w3 & Hf & Hb) | (e & Hf & _)];
      [|apply lift_inv in Hf as [Hf _]; congruence].
    apply lift_inv in Hf as [Hf ->].
    assert (line' = line) as -> by congruence.
    apply bind_inv in Hb as [([] & w4 & Hp & Hb) | (e & Hp & _)];
      [|by apply emit_inv in Hp as [? _]].
    apply emit_inv in Hp as (_ & _ & Hev4).
    apply bind_inv in Hb as [([] & w5 & Hwa & Hb) | (e & Hwa & _)].
    2:{ eapply quiet_inv in Hwa as [? _]; [done|].
        destruct (bool_decide (status r = "WA"));
          eauto using quiet_ret, quiet_print, quiet_bind. }
    eapply quiet_inv in Hwa as (_ & _ & evs1 & Hp1 & Hev5).
    2:{ destruct (bool_decide (status r = "WA"));
          eauto using quiet_ret, quiet_print, quiet_bind. }
    apply bind_inv in Hb as [(ov' & w6 & Hov & Hb) | (e & Hov & _)].
    2:{ eapply (quiet_inv _ (if bool_decide (status r ≠ "AC") then false else ov))
          in Hov as [? _]; [done|].
        destruct (bool_decide (status r ≠ "AC")); [destruct (Py.truthy _)|];
          eauto using quiet_ret, quiet_print, quiet_bind. }
    eapply (quiet_inv _ (if bool_decide (status r ≠ "AC") then false else ov))
      in Hov as ([= ->] & _ & evs2 & Hp2 & Hev6).
    2:{ destruct (bool_decide (status r ≠ "AC")); [destruct (Py.truthy _)|];
          eauto using quiet_ret, quiet_print, quiet_bind. }
    apply IH in Hb as (rest & Hev7 & Hc & Hrep & Hfmt & Hout).
    exists (EvSpawn cmd (Some inp) :: EvResult r :: EvPrint Stdout line
            :: (evs1 ++ evs2) ++ rest).
    split.
    { rewrite Hev7, Hev6, Hev5, Hev4, Hev2, Hev1.
      rewrite <- !app_assoc. done. }
    assert (Forall is_print (evs1 ++ evs2)) as Hp12 by by apply Forall_app.
    split.
    { simpl. unfold compiled_of in *. rewrite omap_app.
      fold (compiled_of (evs1 ++ evs2)). by rewrite prints_compiled, Hc. }
    assert (results_of (EvSpawn cmd (Some inp) :: EvResult r
                        :: EvPrint Stdout line :: (evs1 ++ evs2) ++ rest)
            = r :: results_of rest) as Hres.
    { simpl. unfold results_of in *. rewrite omap_app.
      fold (results_of (evs1 ++ evs2)). by rewrite prints_results. }
    split.
    { rewrite Hres. simpl. rewrite reported_prints by done. by rewrite Hrep. }
    split.
    { simpl. rewrite reported_prints by done. by constructor. }
    destruct out as [b|e]; rewrite Hres; [|simpl; lia].
    destruct Hout as (Hsp & Hnames & Hb). split; [|split].
    + simpl. unfold spawned_inputs in *. rewrite omap_app.
      fold (spawned_inputs (evs1 ++ evs2)).
      by rewrite prints_spawned, Hsp.
    + simpl. by rewrite Hname, Hnames.
    + rewrite Hb. simpl.
      destruct (decide (status r = "AC")) as [Hac|Hac].
      * rewrite (bool_decide_eq_true_2 _ Hac).
        rewrite bool_decide_eq_false_2 by (by intros ?). done.
      * rewrite (bool_decide_eq_false_2 _ Hac).
        rewrite (bool_decide_eq_true_2 _ Hac). by rewrite andb_false_r.
Qed.
End Loop.

Lemma find_source_raise o d s e :
  find_source o d s = Raise e -> exists msg, e = FileNotFoundError msg.
Proof.
  unfold find_source. destruct (is_file o (Path.div d s)); [done|].
  destruct (sorted (glob o d ".cpp")) as [|f [|g l]]; intros [= <-]; eauto.
Qed.

Lemma compile_source_inv H source output std flags w out w' :
  compile_source H source output std flags w = (out, w') ->
  events w' = events w ++ [EvSpawn (compile_command source output std flags) None]
  /\ forall cr, out = Ok cr ->
       binary cr = if success cr then Some output else None.
Proof.
  unfold compile_source. intros Hb.
  apply bind_inv in Hb as [(start & w1 & Hg & Hb) | (e & Hg & _)];
    [|by apply gets_inv in Hg as [? _]].
  apply gets_inv in Hg as [_ ->].
  apply bind_inv in Hb as [(c & w2 & Hr & Hb) | (e & Hr & ->)].
  - apply run_process_inv in Hr.
    apply bind_inv in Hb as [(stop & w3 & Hg & Hb) | (e & Hg & _)];
      [|by apply gets_inv in Hg as [? _]].
    apply gets_inv in Hg as [_ ->].
    apply mret_inv in Hb as [-> ->]. split; [done|].
    by intros cr [= <-].
  - apply run_process_inv in Hr. split; [done|]. by intros cr [=].
Qed.

Lemma make_temp_dir_inv H prefix w r w' :
  make_temp_dir H prefix w = (r, w') ->
  (exists d, r = Ok d) /\ events w' = events w.
Proof.
  unfold make_temp_dir, mbind, M_bind, gets, modify_os. simpl.
  intros [= <- <-]. eauto.
Qed.

Lemma try_finally_remove_tree_inv {A} (body : M A) d w r w' :
  try_finally body (remove_tree d) w = (r, w') ->
  exists w1, body w = (r, w1) /\ events w' = events w1.
Proof.
  unfold try_finally, remove_tree, modify_os.
  destruct (body w) as [r1 w1]. intros [= <- <-]. by exists w1.
Qed.

Ltac solve_quiet :=
  repeat case_match; eauto using quiet_ret, quiet_print, quiet_bind.

Ltac quiet_step Hb w' evs Hp Hos Hev :=
  let Hq := fresh "Hq" in
  apply bind_inv in Hb as [([] & w' & Hq & Hb) | (? & Hq & _)];
  [ eapply (quiet_inv _ tt) in Hq as (_ & Hos & evs & Hp & Hev);
    [|solve_quiet]
  | eapply (quiet_inv _ tt) in Hq as [? _]; [done | solve_quiet] ].

Lemma compiled_of_app a b : compiled_of (a ++ b) = compiled_of a ++ compiled_of b.
Proof. apply omap_app. Qed.

Lemma results_of_app a b : results_of (a ++ b) = results_of a ++ results_of b.
Proof. apply omap_app. Qed.

Lemma spawned_inputs_app a b :
  spawned_inputs (a ++ b) = spawned_inputs a ++ spawned_inputs b.
Proof. apply omap_app. Qed.

Lemma reported_only_prints evs : Forall is_print evs -> reported evs = [].
Proof.
  intros Hp. rewrite <- (app_nil_r evs). by rewrite reported_prints.
Qed.

Ltac project_events :=
  repeat first
    [ rewrite compiled_of_app | rewrite results_of_app
    | rewrite spawned_inputs_app
    | rewrite prints_compiled by done | rewrite prints_results by done
    | rewrite prints_spawned by done
    | rewrite reported_prints by done
    | rewrite reported_only_prints by done
    | progress simpl ].

Section Main.
Variable H : Host.

Lemma main_trace args w pd info lbl w0 out w' :
  locate_problem H args w = (Ok (inr (pd, info, lbl)), w0) ->
  main H args w = (out, w') ->
  exists new,
    events w' = events w0 ++ new
    /\ map fst (reported new) = results_of new
    /\ (exists mt mm,
          Forall (fun rl => format_result H (fst rl) mt mm = Ok (snd rl))
            (reported new))
    /\ ((exists msg,
           find_source (os w0) pd (arg_source args)
           = Raise (FileNotFoundError msg)
           /\ out = Ok 1 /\ compiled_of new = []
           /\ spawned_inputs new = [] /\ results_of new = [])
        \/ (exists src,
              find_source (os w0) pd (arg_source args) = Ok src
              /\ ((compiled_of new = [] /\ (exists e, out = Raise e)
                   /\ spawned_inputs new = [] /\ results_of new = [])
                  \/ (exists cr,
                        compiled_of new = [cr] /\ success cr = false
                        /\ out = Ok 1
                        /\ spawned_inputs new = [] /\ results_of new = [])
                  \/ (exists cr,
                        compiled_of new = [cr] /\ success cr = true
                        /\ match out with
                           | Ok code =>
                               spawned_inputs new
                               = map fst (list_tests (os w0) pd)
                               /\ map name (results_of new)
                                  = map (fun t => Path.name (fst t))
                                        (list_tests (os w0) pd)
                               /\ code
                                  = (if forallb
                                          (fun r => bool_decide (status r = "AC"))
                                          (results_of new)
                                     then 0 else 2)
                           | Raise _ =>
                               (length (results_of new)
                                < length (list_tests (os w0) pd))%nat
                           end)))).
Proof.
  intros Hloc Hmain. unfold main in Hmain.
  apply bind_inv in Hmain as [(a & w1 & Hl & Hb) | (e & Hl & _)];
    [|congruence].
  rewrite Hloc in Hl. injection Hl as <- <-.
  cbv beta iota in Hb.
  apply bind_inv in Hb as [([] & w1 & Hp & Hb) | (e & Hp & _)];
    [|by apply emit_inv in Hp as [? _]].
  apply emit_inv in Hp as (_ & Hos1 & Hev1).
  apply bind_inv in Hb as [(found & w2 & Hg & Hb) | (e & Hg & _)];
    [|by apply gets_inv in Hg as [? _]].
  apply gets_inv in Hg as [[= ->] ->]. rewrite Hos1 in Hb.
  destruct (find_source (os w0) pd (arg_source args)) as [src|e] eqn:Hfs.
  2:{ destruct (find_source_raise _ _ _ _ Hfs) as [msg ->].
      apply bind_inv in Hb as [([] & w2 & Hp & Hb) | (e & Hp & _)];
        [|by apply emit_inv in Hp as [? _]].
      apply emit_inv in Hp as (_ & _ & Hev2).
      apply mret_inv in Hb as [-> ->].
      eexists. split; [rewrite Hev2, Hev1, <- app_assoc; reflexivity|].
      split; [done|]. split; [by exists None, None|].
      left. exists msg. done. }
  quiet_step Hb w2 evs2 Hp2 Hos2 Hev2.
  quiet_step Hb w3 evs3 Hp3 Hos3 Hev3.
  apply bind_inv in Hb as [(tests & w4 & Hg & Hb) | (e & Hg & _)];
    [|by apply gets_inv in Hg as [? _]].
  apply gets_inv in Hg as [[= ->] ->].
  rewrite Hos3, Hos2, Hos1 in Hb.
  quiet_step Hb w4 evs4 Hp4 Hos4 Hev4.
  apply bind_inv in Hb as [(build_dir & w5 & Hd & Hb) | (e & Hd & _)];
    [|by apply make_temp_dir_inv in Hd as [[? ?] _]].
  apply make_temp_dir_inv in Hd as [_ Hev5].
  apply try_finally_remove_tree_inv in Hb as (w6 & Hb & Hev').
  set (pre := EvPrint Stdout
                ("Judging " +:+ default (Path.name pd) lbl +:+ " @ "
                 +:+ Path.str pd) :: evs2 ++ evs3 ++ evs4).
  assert (events w5 = events w0 ++ pre) as Hpre.
  { rewrite Hev5, Hev4, Hev3, Hev2, Hev1. subst pre.
    rewrite <- !app_assoc. done. }
  assert (Forall is_print pre) as Hppre.
  { subst pre. constructor; [done|]. by repeat apply Forall_app_2. }
  clearbody pre.
  clear Hev1 Hev2 Hev3 Hev4 Hev5 Hos1 Hos2 Hos3 Hos4 Hp2 Hp3 Hp4.
  apply bind_inv in Hb as [(cr & w7 & Hc & Hb) | (e & Hc & ->)].
  2:{ apply compile_source_inv in Hc as [Hev7 _].
      eexists. split; [rewrite Hev', Hev7, Hpre, <- app_assoc; reflexivity|].
      split; [by project_events|].
      split; [exists None, None; by project_events|].
      right. exists src. split; [done|].
      left. project_events. eauto. }
  apply compile_source_inv in Hc as [Hev7 Hbin].
  specialize (Hbin cr eq_refl).
  apply bind_inv in Hb as [([] & w8 & He & Hb) | (e & He & _)];
    [|by apply emit_inv in He as [? _]].
  apply emit_inv in He as (_ & _ & Hev8).
  quiet_step Hb w9 evs9 Hp9 Hos9 Hev9.
  quiet_step Hb w10 evs10 Hp10 Hos10 Hev10.
  quiet_step Hb w11 evs11 Hp11 Hos11 Hev11.
  set (post := evs9 ++ evs10 ++ evs11).
  assert (events w11
          = events w0
            ++ pre
            ++ EvSpawn (compile_command src (Path.div build_dir "solution")
                          (arg_std args) (arg_cflags args)) None
               :: EvCompiled cr :: post) as Hpost.
  { rewrite Hev11, Hev10, Hev9, Hev8, Hev7, Hpre. subst post.
    rewrite <- !app_assoc. done. }
  assert (Forall is_print post) as Hppost.
  { subst post. by repeat apply Forall_app_2. }
  clearbody post. clear Hev7 Hev8 Hev9 Hev10 Hev11 Hp9 Hp10 Hp11 Hpre.
  destruct (success cr) eqn:Hsuc.
  2:{ apply mret_inv in Hb as [-> ->].
      eexists. split; [rewrite Hev', Hpost; reflexivity|].
      split; [by project_events|].
      split; [exists None, None; by project_events|].
      right. exists src. split; [done|].
      right. left. exists cr. by project_events. }
  rewrite Hbin in Hb.
  apply bind_inv in Hb as [(ov & w12 & Hr & Hb) | (e & Hr & ->)].
  - apply mret_inv in Hb as [-> ->].
    apply run_tests_trace
      in Hr as (rest & Hev12 & Hcr & Hrep & Hfmt & Hsp & Hnm & Hov).
    exists (pre ++ EvSpawn (compile_command src (Path.div build_dir "solution")
                          (arg_std args) (arg_cflags args)) None
               :: EvCompiled cr :: post ++ rest).
    split.
    { rewrite Hev', Hev12, Hpost. rewrite <- !app_assoc. done. }
    split; [by project_events|].
    split; [eexists _, _; project_events; exact Hfmt|].
    right. exists src. split; [done|].
    right. right. exists cr. project_events. rewrite Hcr.
    repeat split; try done. by rewrite Hov.
  - apply run_tests_trace in Hr as (rest & Hev12 & Hcr & Hrep & Hfmt & Hlen).
    exists (pre ++ EvSpawn (compile_command src (Path.div build_dir "solution")
                          (arg_std args) (arg_cflags args)) None
               :: EvCompiled cr :: post ++ rest).
    split.
    { rewrite Hev', Hev12, Hpost. rewrite <- !app_assoc. done. }
    split; [by project_events|].
    split; [eexists _, _; project_events; exact Hfmt|].
    right. exists src. split; [done|].
    right. right. exists cr. project_events. rewrite Hcr. done.
Qed.
End Main.

(** ** The orchestrator *)

Lemma locate_problem_inv H args w r w0 :
  locate_problem H args w = (r, w0) ->
  os w0 = os w
  /\ (exists evs, Forall is_print evs /\ events w0 = events w ++ evs)
  /\ forall code, r = Ok (inl code) -> code = 1.
Proof.
  unfold locate_problem. intros Hb.
  apply bind_inv in Hb as [(metadata & w1 & Hg & Hb) | (e & Hg & _)];
    [|by apply gets_inv in Hg as [? _]].
  apply gets_inv in Hg as [_ ->].
  destruct (opt_truthy (arg_pid args)).
  - apply bind_inv in Hb as [([pd info] & w1 & Hg & Hb) | (e & Hg & _)];
      [|by apply gets_inv in Hg as [? _]].
    apply gets_inv in Hg as [_ ->].
    apply bind_inv in Hb as [(d & w1 & Hg & Hb) | (e & Hg & _)];
      [|by apply gets_inv in Hg as [? _]].
    apply gets_inv in Hg as [_ ->].
    destruct d; simpl in Hb.
    + apply mret_inv in Hb as [-> ->]. split; [done|]. split; [|done].
      exists []. by rewrite app_nil_r.
    + apply bind_inv in Hb as [([] & w1 & Hp & Hb) | (e & Hp & _)];
        [|by apply emit_inv in Hp as [? _]].
      apply emit_inv in Hp as (_ & Hos & Hev).
      apply mret_inv in Hb as [-> ->]. split; [done|]. split.
      * eexists. split; [|exact Hev]. by repeat constructor.
      * by intros code [= <-].
  - destruct (arg_problem_dir args) as [given|].
    + apply bind_inv in Hb as [(d & w1 & Hg & Hb) | (e & Hg & _)];
        [|by apply gets_inv in Hg as [? _]].
      apply gets_inv in Hg as [_ ->].
      destruct d; simpl in Hb.
      * apply mret_inv in Hb as [-> ->]. split; [done|]. split; [|done].
        exists []. by rewrite app_nil_r.
      * apply bind_inv in Hb as [([] & w1 & Hp & Hb) | (e & Hp & _)];
          [|by apply emit_inv in Hp as [? _]].
        apply emit_inv in Hp as (_ & Hos & Hev).
        apply mret_inv in Hb as [-> ->]. split; [done|]. split.
        -- eexists. split; [|exact Hev]. by repeat constructor.
        -- by intros code [= <-].
    + apply bind_inv in Hb as [([] & w1 & Hp & Hb) | (e & Hp & _)];
        [|by apply emit_inv in Hp as [? _]].
      apply emit_inv in Hp as (_ & Hos & Hev).
      injection Hb as <- <-. split; [done|]. split; [|done].
      eexists. split; [|exact Hev]. by repeat constructor.
Qed.

Lemma main_early H args w code w0 :
  locate_problem H args w = (Ok (inl code), w0) ->
  main H args w = (Ok code, w0).
Proof. intros Hl. unfold main, mbind, M_bind. by rewrite Hl. Qed.




(** The exit codes of three runs: both cases accepted; the case [2]
    without expected output; a compiler that fails. *)
Example exit_code_all_accepted :
  fst (main Demo.adding Demo.args (Demo.world Demo.os_complete)) = Ok 0.
Proof. vm_compute. reflexivity. Qed.

Example exit_code_not_all_accepted :
  fst (main Demo.adding Demo.args (Demo.world Demo.os_timed)) = Ok 2
  /\ map status
       (results_of
          (events (snd (main Demo.adding Demo.args (Demo.world Demo.os_timed)))))
     = ["AC"; "NO_EXPECTED"].
Proof. split; vm_compute; reflexivity. Qed.

Example exit_code_compile_failure :
  fst (main Demo.broken_build Demo.args (Demo.world Demo.os_timed)) = Ok 1
  /\ results_of
       (events (snd (main Demo.broken_build Demo.args
                       (Demo.world Demo.os_timed)))) = []
  /\ spawned_inputs
       (events (snd (main Demo.broken_build Demo.args
                       (Demo.world Demo.os_timed)))) = [].
Proof. repeat split; vm_compute; reflexivity. Qed.






(** The listing of the example directory, and the order in which its
    cases are run and reported. *)
Example listing_evaluated :
  list_tests Demo.os_timed ["/"; "p"]
  = [ (["/"; "p"; "1.in"], ["/"; "p"; "1.out"]);
      (["/"; "p"; "2.in"], ["/"; "p"; "2.out"]) ]
  /\ is_file Demo.os_timed ["/"; "p"; "2.out"] = false
  /\ map (fun rl => snd rl)
       (reported
          (events (snd (main Demo.adding Demo.args (Demo.world Demo.os_timed)))))
     = [ "[1.in] AC | time 250.00 ms | mem 2.00 MB | Accepted";
         "[2.in] NO_EXPECTED | time 250.00 ms | mem 2.00 MB | Expected output missing" ].
Proof. repeat split; vm_compute; reflexivity. Qed.

(** * Further properties *)

(** ** Normalization *)

Lemma split_from_separator a c b : forall cur,
  Py.isspace c = true ->
  Py.split_from cur (a +:+ String c b)
  = Py.split_from cur a ++ Py.split_from "" b.
Proof.
  induction a as [|x a IH]; intros cur Hc.
  - simpl. by rewrite Hc.
  - rewrite str_app_cons. simpl. destruct (Py.isspace x).
    + rewrite IH by done. by rewrite app_assoc.
    + by apply IH.
Qed.

(** X1: the tokens of two texts put together with a whitespace character
    between them are the tokens of the first followed by the tokens of
    the second. *)
Theorem normalize_text_concat a c b :
  Py.isspace c = true ->
  normalize_text (a +:+ String c b) = normalize_text a ++ normalize_text b.
Proof.
  intros Hc. unfold normalize_text. rewrite !split_strip.
  by apply split_from_separator.
Qed.

Lemma normalize_text_concat_witness :
  normalize_text ("1 2" +:+ String (ascii_of_nat 10) " 3")
  = normalize_text "1 2" ++ normalize_text " 3".
Proof. apply normalize_text_concat. reflexivity. Defined.

Lemma join_empty_cons t ts : Py.join "" (t :: ts) = t +:+ Py.join "" ts.
Proof. destruct ts; simpl; [by rewrite str_app_nil_r | done]. Qed.

Lemma join_empty_app l1 l2 :
  Py.join "" (l1 ++ l2) = Py.join "" l1 +:+ Py.join "" l2.
Proof.
  induction l1 as [|t l1 IH]; [done|].
  change ((t :: l1) ++ l2) with (t :: (l1 ++ l2)).
  by rewrite !join_empty_cons, IH, str_app_assoc.
Qed.

Lemma join_empty_flush cur : Py.join "" (Py.flush cur) = cur.
Proof. by destruct cur. Qed.

Lemma join_split_from s : forall cur,
  Py.join "" (Py.split_from cur s) = cur +:+ remove_spaces s.
Proof.
  induction s as [|c s IH]; intros cur; simpl.
  - by rewrite join_empty_flush, str_app_nil_r.
  - destruct (Py.isspace c).
    + by rewrite join_empty_app, join_empty_flush, IH.
    + by rewrite IH, str_app_snoc.
Qed.

(** X2: normalization deletes whitespace and nothing else: the tokens
    written one after the other are the text without its whitespace
    characters. *)
Theorem normalize_text_only_drops_whitespace x :
  Py.join "" (normalize_text x) = remove_spaces x.
Proof.
  unfold normalize_text. rewrite split_strip. apply join_split_from.
Qed.

Lemma split_from_nil s : forall cur,
  Py.split_from cur s = [] <-> cur = "" /\ all_space s = true.
Proof.
  induction s as [|c s IH]; intros cur; simpl.
  - destruct cur; simpl; split; try done. by intros [? _].
  - destruct (Py.isspace c); simpl.
    + rewrite app_nil, IH. destruct cur; simpl; split; try tauto.
      * by intros [? _].
      * by intros [? _].
    + rewrite IH. split; [|by intros [_ ?]].
      intros [Hcur _]. by apply str_app_eq_nil in Hcur as [_ ?].
Qed.

(** X3: a text has no token exactly when it holds nothing but
    whitespace (the empty text included). *)
Theorem normalize_text_empty_iff x :
  normalize_text x = [] <-> all_space x = true.
Proof.
  unfold normalize_text. rewrite split_strip. unfold Py.split.
  rewrite split_from_nil. tauto.
Qed.

(** ** The log of the time wrapper, parsed *)

Lemma split_strip_truthy s :
  Py.split (Py.strip s) ≠ [] -> Py.truthy (Py.strip s) = true.
Proof. by destruct (Py.strip s). Qed.

(** X4: [parse_time_output] yields a time exactly when it yields a
    memory figure: both or neither. *)
Theorem parse_time_output_all_or_nothing H o path :
  fst (parse_time_output H o path) = None
  <-> snd (parse_time_output H o path) = None.
Proof.
  unfold parse_time_output.
  destruct (is_file o path); simpl; [|done].
  destruct (Py.truthy (Py.strip (read_text o path))); simpl; [|done].
  destruct (Py.split (Py.strip (read_text o path))) as [|p0 [|p1 rest]];
    simpl; try done.
  destruct (float_of_str H p0); simpl; [|done].
  destruct (float_of_str H p1); simpl; done.
Qed.

(** X5: [parse_time_output] yields values exactly when the file exists,
    its text has at least two tokens and the first two are numerals; the
    time is the first, the memory figure the second cut to an integer;
    whitespace around the tokens and further tokens do not matter. *)
Theorem parse_time_output_success H o path t m :
  parse_time_output H o path = (Some t, Some m)
  <-> exists content p0 p1 rest x,
        files o !! path = Some content
        /\ normalize_text content = p0 :: p1 :: rest
        /\ float_of_str H p0 = Some t
        /\ float_of_str H p1 = Some x
        /\ m = int_of_float x.
Proof.
  unfold parse_time_output, is_file, read_text, normalize_text. split.
  - destruct (files o !! path) as [content|] eqn:Hf; simpl; [|done].
    destruct (Py.truthy (Py.strip content)); simpl; [|done].
    destruct (Py.split (Py.strip content)) as [|p0 [|p1 rest]] eqn:Hs;
      try done.
    destruct (float_of_str H p0) as [t'|] eqn:H0; [|done].
    destruct (float_of_str H p1) as [x|] eqn:H1; [|done].
    intros [= <- <-]. by exists content, p0, p1, rest, x.
  - intros (content & p0 & p1 & rest & x & Hf & Hs & H0 & H1 & ->).
    rewrite Hf. simpl.
    rewrite split_strip_truthy by (by rewrite Hs). simpl.
    by rewrite Hs, H0, H1.
Qed.

(** ** Source resolution *)

Lemma sorted_singleton l f : sorted l = [f] <-> l = [f].
Proof.
  split.
  - intros Hs. apply Permutation_singleton_r. rewrite <- Hs.
    unfold sorted. by rewrite merge_sort_Permutation.
  - by intros ->.
Qed.

Lemma sorted_nil l : sorted l = [] <-> l = [].
Proof.
  split.
  - intros Hs. apply Permutation_nil_r. rewrite <- Hs.
    unfold sorted. by rewrite merge_sort_Permutation.
  - by intros ->.
Qed.

Lemma sorted_length l : length (sorted l) = length l.
Proof. unfold sorted. by rewrite merge_sort_Permutation. Qed.

(** X6: [find_source] returns the preferred file when it exists, whatever
    else the directory holds; otherwise it returns a path exactly when
    the directory has one single entry whose name ends with [.cpp], and
    that entry is the path. *)
Theorem find_source_success o problem_dir preferred f :
  find_source o problem_dir preferred = Ok f
  <-> (is_file o (Path.div problem_dir preferred) = true
       /\ f = Path.div problem_dir preferred)
      \/ (is_file o (Path.div problem_dir preferred) = false
          /\ glob o problem_dir ".cpp" = [f]).
Proof.
  unfold find_source.
  destruct (is_file o (Path.div problem_dir preferred)).
  - split; [intros [= <-]; by left | intros [[_ ->] | [? _]]; done].
  - rewrite <- sorted_singleton.
    destruct (sorted (glob o problem_dir ".cpp")) as [|g [|g' l]]; split;
      try done; try (intros [[? _] | [_ ?]]; done).
    + intros [= <-]. by right.
    + by intros [[? _] | [_ [= <-]]].
Qed.

(** X7: [find_source] raises exactly when the preferred file does not
    exist and the directory has no entry ending with [.cpp] or more than
    one; the error is a [FileNotFoundError] that says which, and in the
    second case lists the names in sorted order. *)
Theorem find_source_failure o problem_dir preferred e :
  find_source o problem_dir preferred = Raise e
  <-> is_file o (Path.div problem_dir preferred) = false
      /\ ((glob o problem_dir ".cpp" = []
           /\ e = FileNotFoundError
                    ("No C++ source file found in " +:+ Path.str problem_dir))
          \/ ((2 <= length (glob o problem_dir ".cpp"))%nat
              /\ e = FileNotFoundError
                       ("Multiple C++ sources found ("
                        +:+ Py.join ", "
                              (map Path.name
                                 (sorted (glob o problem_dir ".cpp")))
                        +:+ "); specify one via --source"))).
Proof.
  unfold find_source.
  destruct (is_file o (Path.div problem_dir preferred)).
  { split; [done | by intros [? _]]. }
  rewrite <- sorted_nil, <- sorted_length.
  destruct (sorted (glob o problem_dir ".cpp")) as [|g [|g' l]]; simpl.
  - split; [intros [= <-]; split; [done|]; by left|].
    intros [_ [[_ ->] | [Hlen _]]]; [done | lia].
  - split; [done|]. intros [_ [[? _] | [Hlen _]]]; [done | lia].
  - split.
    + intros [= <-]. split; [done|]. right. split; [lia | done].
    + intros [_ [[? _] | [_ ->]]]; done.
Qed.

(** ** Metadata lookup *)

Lemma dict_get_elem m k r : dict_get m k = Some r -> (k, r) ∈ m.
Proof.
  induction m as [|[k' v] m IH]; [done|]. simpl.
  destruct (String.eqb_spec k' k) as [->|Hne].
  - intros [= ->]. by left.
  - intros Hg. right. by apply IH.
Qed.

Lemma find_snd_None {A B} (f : A * B -> bool) (l : list (A * B)) :
  snd <$> find f l = None <-> forall x, x ∈ l -> f x = false.
Proof.
  induction l as [|x l IH]; simpl.
  - split; [|done]. intros _ x Hx. by apply elem_of_nil in Hx.
  - destruct (f x) eqn:Hfx; simpl.
    + split; [done|]. intros Hall. specialize (Hall x (list_elem_of_here _ _)).
      congruence.
    + rewrite IH. split.
      * intros Hall y [->|Hy]%elem_of_cons; auto.
      * intros Hall y Hy. apply Hall. by right.
Qed.

Lemma find_snd_Some {A B} (f : A * B -> bool) (l : list (A * B)) r :
  snd <$> find f l = Some r -> exists k, (k, r) ∈ l /\ f (k, r) = true.
Proof.
  induction l as [|[k v] l IH]; simpl; [done|].
  destruct (f (k, v)) eqn:Hf; simpl.
  - intros [= <-]. exists k. split; [by left | done].
  - intros Hs. destruct (IH Hs) as (k' & Hin & Hk). exists k'.
    split; [by right | done].
Qed.

(** X8: [locate_record_by_pid] finds nothing exactly when no non-empty
    record is stored under the key [pid] and no record of the dictionary
    has [pid] as its [pid] member. *)
Theorem locate_record_by_pid_none metadata pid :
  locate_record_by_pid metadata pid = None
  <-> (forall r, dict_get metadata pid = Some r -> info_truthy r = false)
      /\ (forall k r, (k, r) ∈ metadata -> info_pid r ≠ Some pid).
Proof.
  unfold locate_record_by_pid.
  assert (snd <$> find (fun e => bool_decide (info_pid (snd e) = Some pid))
                       metadata = None
          <-> forall k r, (k, r) ∈ metadata -> info_pid r ≠ Some pid) as Hscan.
  { rewrite find_snd_None. split.
    - intros Hall k r Hin. specialize (Hall (k, r) Hin). simpl in Hall.
      by apply bool_decide_eq_false in Hall.
    - intros Hall [k r] Hin. simpl. apply bool_decide_eq_false. by eapply Hall. }
  destruct (dict_get metadata pid) as [record|];
    [destruct (info_truthy record) eqn:Ht|].
  - split; [done|]. intros [Hf _]. specialize (Hf record eq_refl). congruence.
  - rewrite Hscan. split; [|tauto]. intros Hs. split; [|done].
    by intros r [= <-].
  - rewrite Hscan. split; [|tauto]. intros Hs. split; done.
Qed.

(** X9: a record found by [locate_record_by_pid] is either the non-empty
    record stored under the key [pid], whatever its own [pid] member
    says, or, when there is no such record, a record of the dictionary
    whose [pid] member is [pid]. *)
Theorem locate_record_by_pid_sound metadata pid r :
  locate_record_by_pid metadata pid = Some r ->
  (dict_get metadata pid = Some r /\ info_truthy r = true)
  \/ ((forall r', dict_get metadata pid = Some r' -> info_truthy r' = false)
      /\ exists k, (k, r) ∈ metadata /\ info_pid r = Some pid).
Proof.
  unfold locate_record_by_pid.
  destruct (dict_get metadata pid) as [record|];
    [destruct (info_truthy record) eqn:Ht|].
  - intros [= <-]. by left.
  - intros (k & Hin & Hk)%find_snd_Some. right. split.
    + by intros r' [= <-].
    + exists k. split; [done|]. simpl in Hk. by apply bool_decide_eq_true in Hk.
  - intros (k & Hin & Hk)%find_snd_Some. right. split; [done|].
    exists k. split; [done|]. simpl in Hk. by apply bool_decide_eq_true in Hk.
Qed.

(** The record of [P1177] is stored under the key [quick] and found by
    its [pid] member. *)
Lemma locate_record_by_pid_sound_witness :
  (dict_get Sample.metadata "P1177" = Some Sample.sort_record
   /\ info_truthy Sample.sort_record = true)
  \/ ((forall r', dict_get Sample.metadata "P1177" = Some r' ->
                  info_truthy r' = false)
      /\ exists k, (k, Sample.sort_record) ∈ Sample.metadata
                   /\ info_pid Sample.sort_record = Some "P1177").
Proof.
  apply (locate_record_by_pid_sound Sample.metadata "P1177" Sample.sort_record).
  reflexivity.
Defined.

(** X10: a record found by [locate_record_by_directory] is a record of
    the dictionary whose stored directory has the name of the directory
    asked for, or the non-empty record stored under that name as key when
    it has no stored directory. *)
Theorem locate_record_by_directory_sound metadata directory r :
  locate_record_by_directory metadata directory = Some r ->
  exists k, (k, r) ∈ metadata
    /\ (stored_dir_matches r (Path.name directory) = true
        \/ (k = Path.name directory /\ info_truthy r = true
            /\ opt_truthy (info_directory r) = false)).
Proof.
  unfold locate_record_by_directory.
  assert (snd <$> find (fun e => stored_dir_matches (snd e) (Path.name directory))
                       metadata = Some r ->
          exists k, (k, r) ∈ metadata
            /\ (stored_dir_matches r (Path.name directory) = true
                \/ (k = Path.name directory /\ info_truthy r = true
                    /\ opt_truthy (info_directory r) = false))) as Hscan.
  { intros (k & Hin & Hk)%find_snd_Some. exists k. split; [done|]. by left. }
  destruct (dict_get metadata (Path.name directory)) as [record|] eqn:Hg;
    [|exact Hscan].
  destruct (info_truthy record) eqn:Ht; [|exact Hscan].
  destruct (negb (opt_truthy (info_directory record))
            || stored_dir_matches record (Path.name directory)) eqn:Hok;
    [|exact Hscan].
  intros [= <-]. exists (Path.name directory).
  split; [by apply dict_get_elem|].
  apply orb_true_iff in Hok as [Hno%negb_true_iff | Hm]; [right | left]; done.
Qed.

Lemma locate_record_by_directory_sound_witness :
  exists k, (k, Sample.sort_record) ∈ Sample.metadata
    /\ (stored_dir_matches Sample.sort_record
          (Path.name ["/"; "judge"; "problem"; "sorting"]) = true
        \/ (k = Path.name ["/"; "judge"; "problem"; "sorting"]
            /\ info_truthy Sample.sort_record = true
            /\ opt_truthy (info_directory Sample.sort_record) = false)).
Proof.
  apply (locate_record_by_directory_sound Sample.metadata
           ["/"; "judge"; "problem"; "sorting"] Sample.sort_record).
  reflexivity.
Defined.




(** ** The summary line *)

Lemma splitlines_empty_iff s : Py.splitlines s = [] <-> s = "".
Proof.
  unfold Py.splitlines. destruct s as [|c s]; [done|]. simpl.
  split; [|done]. destruct (Py.islinebreak c); [done|].
  intros Hs. by apply splitlines_from_nonempty in Hs.
Qed.

(** X13: [format_result] raises, with [IndexError], exactly when the
    message of the result is empty; for every other result it returns a
    line. *)
Theorem format_result_raises_iff_empty_message H r time_limit memory_limit :
  (format_result H r time_limit memory_limit = Raise IndexError
   <-> message r = "")
  /\ ((exists line, format_result H r time_limit memory_limit = Ok line)
      <-> message r ≠ "").
Proof.
  unfold format_result, first_line.
  destruct (Py.splitlines (message r)) as [|l ls] eqn:Hs.
  - apply splitlines_empty_iff in Hs. split; [done|].
    split; [by intros [? ?] | done].
  - assert (message r ≠ "") as Hne.
    { intros Hm. apply splitlines_empty_iff in Hm. congruence. }
    split; [done|]. split; [done | eauto].
Qed.

(** X14: every result that [run_single_test] returns can be formatted:
    [format_result] does not raise on it, whatever the limits. *)
Theorem run_single_test_result_formats H executable input_file expected_file
    timeout w r w' time_limit memory_limit :
  run_single_test H executable input_file expected_file timeout w = (Ok r, w') ->
  exists line, format_result H r time_limit memory_limit = Ok line.
Proof.
  intros Hrun. destruct (run_single_test_message _ _ _ _ _ _ _ _ Hrun) as [l Hl].
  by eapply format_result_ok.
Qed.

Lemma run_single_test_result_formats_witness :
  exists line,
    format_result Demo.wrong
      (Sample.result_of (Sample.judged Demo.wrong Demo.in1 Demo.out1
                           Demo.os_timed))
      (Some 1%Q) (Some 131072)
    = Ok line.
Proof.
  apply (run_single_test_result_formats Demo.wrong Demo.exe Demo.in1 Demo.out1
           (Some 2%Q) (Demo.world Demo.os_timed) _
           (snd (Sample.judged Demo.wrong Demo.in1 Demo.out1 Demo.os_timed))).
  vm_compute. reflexivity.
Defined.





(** ** Results of a test run *)

(** X16: the status of every result that [run_single_test] returns is
    one of AC, WA, RE, TLE and NO_EXPECTED, and its name is the name of
    the input file. *)
Theorem run_single_test_status_closed H executable input_file expected_file
    timeout w r w' :
  run_single_test H executable input_file expected_file timeout w = (Ok r, w') ->
  status r ∈ verdicts /\ name r = Path.name input_file.
Proof.
  test_unfold. destruct (is_file (os w) executable); simpl; [|done].
  destruct (resource_available H); simpl;
  destruct (run_with_time H [Path.str executable] input_file timeout w)
    as [[p|e] w1]; simpl.
  all: try (destruct e; try done; intros [= <- _]; simpl; split; [|done];
            unfold verdicts; set_solver).
  all: destruct (time_log_path p) as [log|]; simpl.
  all: try destruct (parse_time_output H (os w1) log) as [ti mi]; simpl.
  all: match goal with
       | |- context [let '(_, _) := ?c in _] =>
           destruct c as [st msg] eqn:Hc
       end.
  all: intros [= <- _]; simpl; split; [|done].
  all: repeat match type of Hc with
         | context [if ?b then _ else _] => destruct b
         end; inversion Hc; subst; unfold verdicts; set_solver.
Qed.

Lemma run_single_test_status_closed_witness :
  status (Sample.result_of (Sample.judged Demo.hanging Demo.in2 Demo.out2
                              Demo.os_timed)) ∈ verdicts
  /\ name (Sample.result_of (Sample.judged Demo.hanging Demo.in2 Demo.out2
                               Demo.os_timed)) = Path.name Demo.in2.
Proof.
  apply (run_single_test_status_closed Demo.hanging Demo.exe Demo.in2 Demo.out2
           (Some 2%Q) (Demo.world Demo.os_timed) _
           (snd (Sample.judged Demo.hanging Demo.in2 Demo.out2 Demo.os_timed))).
  vm_compute. reflexivity.
Defined.

(** X17: a result is AC only if the child ended with exit code zero, the
    expected-output file exists in the world the run leaves, and the
    output has the tokens of that file: never after a timeout, a non-zero
    exit code or without expected output. *)
Theorem accepted_only_on_matching_output H executable input_file expected_file
    timeout w r w' :
  run_single_test H executable input_file expected_file timeout w = (Ok r, w') ->
  status r = "AC" ->
  exists p w1,
    run_with_time H [Path.str executable] input_file timeout w = (Ok p, w1)
    /\ returncode (proc p) = 0
    /\ stdout r = out_text (proc p)
    /\ is_file (os w') expected_file = true
    /\ normalize_text (stdout r)
       = normalize_text (read_text (os w') expected_file).
Proof.
  intros Hrun Hac.
  destruct (is_file (os w) executable) eqn:Hexe.
  2:{ revert Hrun. test_unfold. by rewrite Hexe. }
  destruct (run_with_time H [Path.str executable] input_file timeout w)
    as [[p|e] w1] eqn:Hrw.
  - destruct (completed_result H executable input_file expected_file timeout
                w w1 p Hexe Hrw)
      as (r0 & Heq & _ & Hout & _ & Hre & Hno & _ & Hwa & _).
    rewrite Heq in Hrun. injection Hrun as <- <-.
    exists p, w1. split; [done|].
    destruct (decide (returncode (proc p) = 0)) as [Hz|Hnz].
    2:{ destruct (Hre Hnz) as [Hs _]. congruence. }
    destruct (is_file (os (verdict_world p w1)) expected_file) eqn:Hf.
    2:{ destruct (Hno Hz eq_refl) as [Hs _]. congruence. }
    repeat split; try done. rewrite Hout.
    destruct (decide (normalize_text (out_text (proc p))
                      = normalize_text
                          (read_text (os (verdict_world p w1)) expected_file)))
      as [Hsame|Hdiff]; [done|].
    specialize (Hwa Hz eq_refl Hdiff). congruence.
  - revert Hrun. test_unfold. rewrite Hexe. simpl.
    destruct (resource_available H); simpl; rewrite Hrw; simpl.
    all: destruct e; try done; intros [= <- _]; simpl in Hac; done.
Qed.

Lemma accepted_only_on_matching_output_witness :
  exists p w1,
    run_with_time Demo.accepting [Path.str Demo.exe] Demo.in1 (Some 2%Q)
      (Demo.world Demo.os_timed) = (Ok p, w1)
    /\ returncode (proc p) = 0
    /\ stdout (Sample.result_of (Sample.judged Demo.accepting Demo.in1
                                   Demo.out1 Demo.os_timed))
       = out_text (proc p)
    /\ is_file (os (snd (Sample.judged Demo.accepting Demo.in1 Demo.out1
                           Demo.os_timed))) Demo.out1 = true
    /\ normalize_text
         (stdout (Sample.result_of (Sample.judged Demo.accepting Demo.in1
                                      Demo.out1 Demo.os_timed)))
       = normalize_text
           (read_text (os (snd (Sample.judged Demo.accepting Demo.in1
                                  Demo.out1 Demo.os_timed))) Demo.out1).
Proof.
  apply (accepted_only_on_matching_output Demo.accepting Demo.exe Demo.in1
           Demo.out1 (Some 2%Q) (Demo.world Demo.os_timed));
    vm_compute; reflexivity.
Defined.

(** X18: when the time wrapper's log parses to a positive time, the
    result carries the time and the memory figure of the log. *)
Theorem instrumented_values_are_reported H executable input_file expected_file
    timeout w w1 p log t m :
  is_file (os w) executable = true ->
  run_with_time H [Path.str executable] input_file timeout w = (Ok p, w1) ->
  time_log_path p = Some log ->
  parse_time_output H (os w1) log = (Some t, Some m) ->
  (0 < t)%Q ->
  exists r w',
    run_single_test H executable input_file expected_file timeout w = (Ok r, w')
    /\ time_seconds r = Some t /\ memory_kb r = Some m.
Proof.
  intros Hexe Hrun Hlog Hparse Hpos.
  destruct (completed_result H executable input_file expected_file timeout
              w w1 p Hexe Hrun) as (r & Heq & _ & _ & _ & _ & _ & _ & _ & Hl & _).
  exists r, (verdict_world p w1). split; [exact Heq|].
  destruct (Hl log Hlog) as [Hm Ht]. rewrite Hparse in Hm, Ht. simpl in *.
  split; [|done]. rewrite Ht.
  destruct (Qle_bool t 0) eqn:Hle; [|done].
  apply Qle_bool_iff in Hle. by apply Qle_not_lt in Hle.
Qed.

Lemma instrumented_values_are_reported_witness :
  exists r w',
    run_single_test Demo.accepting Demo.exe Demo.in1 Demo.out1 (Some 2%Q)
      (Demo.world Demo.os_timed) = (Ok r, w')
    /\ time_seconds r = Some (25 # 100)%Q /\ memory_kb r = Some 2048.
Proof.
  apply (instrumented_values_are_reported Demo.accepting Demo.exe Demo.in1
           Demo.out1 (Some 2%Q) (Demo.world Demo.os_timed)
           (snd (Demo.ended Demo.accepting Demo.in1 Demo.os_timed))
           (fst (Demo.ended Demo.accepting Demo.in1 Demo.os_timed))
           ["/"; "tmp"; "judge_time_0"]);
    vm_compute; reflexivity.
Defined.

(** X19: without the time binary and without the resource module the
    result carries the difference of the clock readings as its time and
    no memory figure. *)
Theorem no_instrumentation_no_memory H executable input_file expected_file
    timeout w w1 p :
  is_file (os w) executable = true ->
  run_with_time H [Path.str executable] input_file timeout w = (Ok p, w1) ->
  is_file (os w) TIME_BINARY = false ->
  resource_available H = false ->
  exists r w',
    run_single_test H executable input_file expected_file timeout w = (Ok r, w')
    /\ time_seconds r = Some (clock (os w1) - clock (os w))%Q
    /\ memory_kb r = None.
Proof.
  intros Hexe Hrun Hbin Hres.
  destruct (completed_result H executable input_file expected_file timeout
              w w1 p Hexe Hrun) as (r & Heq & _ & _ & _ & _ & _ & _ & _ & _ & Hfb).
  exists r, (verdict_world p w1). split; [exact Heq|].
  destruct (Hfb (run_with_time_no_log _ _ _ _ _ _ _ Hbin Hrun)) as [Ht Hm].
  by rewrite Hres in Hm.
Qed.

Lemma no_instrumentation_no_memory_witness :
  exists r w',
    run_single_test Sample.bare Demo.exe Demo.in1 Demo.out1 (Some 2%Q)
      (Demo.world Demo.os_plain) = (Ok r, w')
    /\ time_seconds r
       = Some (clock (os (snd (Demo.ended Sample.bare Demo.in1 Demo.os_plain)))
               - clock (os (Demo.world Demo.os_plain)))%Q
    /\ memory_kb r = None.
Proof.
  apply (no_instrumentation_no_memory Sample.bare Demo.exe Demo.in1 Demo.out1
           (Some 2%Q) (Demo.world Demo.os_plain)
           (snd (Demo.ended Sample.bare Demo.in1 Demo.os_plain))
           (fst (Demo.ended Sample.bare Demo.in1 Demo.os_plain)));
    vm_compute; reflexivity.
Defined.

(** X20: when a run ends under the time wrapper, the log is gone from
    the world that [run_single_test] leaves, whether or not it could be
    parsed, and every other file is as the child left it. *)
Theorem time_log_is_the_only_file_removed H executable input_file
    expected_file timeout w w1 p log :
  is_file (os w) executable = true ->
  run_with_time H [Path.str executable] input_file timeout w = (Ok p, w1) ->
  time_log_path p = Some log ->
  exists r w',
    run_single_test H executable input_file expected_file timeout w = (Ok r, w')
    /\ is_file (os w') log = false
    /\ (forall q, q ≠ log -> files (os w') !! q = files (os w1) !! q)
    /\ dirs (os w') = dirs (os w1).
Proof.
  intros Hexe Hrun Hlog.
  destruct (completed_result H executable input_file expected_file timeout
              w w1 p Hexe Hrun) as (r & Heq & _).
  exists r, (verdict_world p w1). split; [exact Heq|].
  unfold verdict_world. rewrite Hlog. unfold is_file. simpl.
  split; [|split; [|done]].
  - apply bool_decide_eq_false. rewrite lookup_delete_eq. by intros [? ?].
  - intros q Hq. by rewrite lookup_delete_ne.
Qed.

Lemma time_log_is_the_only_file_removed_witness :
  exists r w',
    run_single_test Demo.odd_report Demo.exe Demo.in1 Demo.out1 (Some 2%Q)
      (Demo.world Demo.os_timed) = (Ok r, w')
    /\ is_file (os w') ["/"; "tmp"; "judge_time_0"] = false
    /\ (forall q, q ≠ ["/"; "tmp"; "judge_time_0"] ->
          files (os w') !! q
          = files (os (snd (Demo.ended Demo.odd_report Demo.in1
                              Demo.os_timed))) !! q)
    /\ dirs (os w')
       = dirs (os (snd (Demo.ended Demo.odd_report Demo.in1 Demo.os_timed))).
Proof.
  apply (time_log_is_the_only_file_removed Demo.odd_report Demo.exe Demo.in1
           Demo.out1 (Some 2%Q) (Demo.world Demo.os_timed)
           (snd (Demo.ended Demo.odd_report Demo.in1 Demo.os_timed))
           (fst (Demo.ended Demo.odd_report Demo.in1 Demo.os_timed)));
    vm_compute; reflexivity.
Defined.

(** ** The process runner *)

(** X21: when [/usr/bin/time] is installed, [run_with_time] starts the
    command behind [/usr/bin/time -f "%e %M" -o log], with the name that
    [mkstemp] picked as log, and records that log on the result;
    otherwise it starts the command as it is and records no log.  The
    standard input is the input file in both cases. *)
Theorem run_with_time_command H command stdin timeout w p w1 :
  run_with_time H command stdin timeout w = (Ok p, w1) ->
  if is_file (os w) TIME_BINARY then
    time_log_path p = Some (mkstemp H "judge_time_" (os w))
    /\ events w1
       = events w
         ++ [EvSpawn
               (["/usr/bin/time"; "-f"; "%e %M"; "-o";
                 Path.str (mkstemp H "judge_time_" (os w))] ++ command)
               (Some stdin)]
  else
    time_log_path p = None
    /\ events w1 = events w ++ [EvSpawn command (Some stdin)].
Proof.
  unfold run_with_time. intros Hb.
  apply bind_inv in Hb as [(tb & w2 & Hg & Hb) | (e & Hg & [=])].
  apply gets_inv in Hg as [[= ->] ->].
  destruct (is_file (os w) TIME_BINARY).
  - apply bind_inv in Hb as [([log cmd] & w2 & Hsel & Hb) | (e & _ & [=])].
    unfold make_temp_file, mbind, M_bind, gets, modify_os in Hsel.
    simpl in Hsel. injection Hsel as <- <- <-.
    apply bind_inv in Hb as [([] & w3 & Ho & Hb) | (e & _ & [=])].
    apply open_read_inv in Ho as [-> _].
    apply bind_inv in Hb as [(c & w4 & Hr & Hm) | (e & _ & [=])].
    apply run_process_inv in Hr. apply mret_inv in Hm as [[= ->] ->].
    done.
  - apply bind_inv in Hb as [([log cmd] & w2 & Hsel & Hb) | (e & _ & [=])].
    apply mret_inv in Hsel as [[= <- <-] ->].
    apply bind_inv in Hb as [([] & w3 & Ho & Hb) | (e & _ & [=])].
    apply open_read_inv in Ho as [-> _].
    apply bind_inv in Hb as [(c & w4 & Hr & Hm) | (e & _ & [=])].
    apply run_process_inv in Hr. apply mret_inv in Hm as [[= ->] ->].
    done.
Qed.

Lemma run_with_time_command_witness :
  if is_file (os (Demo.world Demo.os_timed)) TIME_BINARY then
    time_log_path (fst (Demo.ended Demo.accepting Demo.in1 Demo.os_timed))
    = Some (mkstemp Demo.accepting "judge_time_" (os (Demo.world Demo.os_timed)))
    /\ events (snd (Demo.ended Demo.accepting Demo.in1 Demo.os_timed))
       = events (Demo.world Demo.os_timed)
         ++ [EvSpawn
               (["/usr/bin/time"; "-f"; "%e %M"; "-o";
                 Path.str (mkstemp Demo.accepting "judge_time_"
                             (os (Demo.world Demo.os_timed)))]
                ++ [Path.str Demo.exe])
               (Some Demo.in1)]
  else
    time_log_path (fst (Demo.ended Demo.accepting Demo.in1 Demo.os_timed))
    = None
    /\ events (snd (Demo.ended Demo.accepting Demo.in1 Demo.os_timed))
       = events (Demo.world Demo.os_timed)
         ++ [EvSpawn [Path.str Demo.exe] (Some Demo.in1)].
Proof.
  apply (run_with_time_command Demo.accepting [Path.str Demo.exe] Demo.in1
           (Some 2%Q) (Demo.world Demo.os_timed)).
  vm_compute. reflexivity.
Defined.

(** X22: when the input file does not exist, [run_with_time] raises
    before any child is started; with [/usr/bin/time] installed the log
    file it had already made stays behind. *)
Theorem run_with_time_missing_input H command stdin timeout w :
  is_file (os w) stdin = false ->
  stdin ≠ mkstemp H "judge_time_" (os w) ->
  exists e w1,
    run_with_time H command stdin timeout w = (Raise e, w1)
    /\ ((exists msg, e = FileNotFoundError msg) \/ e = IsADirectoryError stdin)
    /\ events w1 = events w
    /\ (is_file (os w) TIME_BINARY = true ->
        is_file (os w1) (mkstemp H "judge_time_" (os w)) = true).
Proof.
  intros Hmiss Hfresh.
  unfold run_with_time, mbind, M_bind, gets. simpl.
  destruct (is_file (os w) TIME_BINARY); simpl.
  - unfold open_read, mbind, M_bind, gets, raise. simpl.
    assert (is_file (set_files (insert (mkstemp H "judge_time_" (os w)) "")
                       (os w)) stdin = false) as ->.
    { unfold is_file in *. simpl. apply bool_decide_eq_false.
      apply bool_decide_eq_false in Hmiss.
      by rewrite lookup_insert_ne. }
    simpl.
    assert (is_file (set_files (insert (mkstemp H "judge_time_" (os w)) "")
                       (os w)) (mkstemp H "judge_time_" (os w)) = true) as Htmp.
    { unfold is_file. simpl. apply bool_decide_eq_true.
      rewrite lookup_insert_eq. eauto. }
    destruct (is_dir _ stdin); eexists _, _; (split; [reflexivity|]); eauto.
  - unfold open_read, mbind, M_bind, gets, raise. simpl. rewrite Hmiss. simpl.
    destruct (is_dir (os w) stdin); eexists _, _; (split; [reflexivity|]);
      (split; [eauto|]); done.
Qed.

Lemma run_with_time_missing_input_witness :
  exists e w1,
    run_with_time Demo.accepting [Path.str Demo.exe] Sample.missing_input
      (Some 2%Q) (Demo.world Demo.os_timed) = (Raise e, w1)
    /\ ((exists msg, e = FileNotFoundError msg)
        \/ e = IsADirectoryError Sample.missing_input)
    /\ events w1 = events (Demo.world Demo.os_timed)
    /\ (is_file (os (Demo.world Demo.os_timed)) TIME_BINARY = true ->
        is_file (os w1)
          (mkstemp Demo.accepting "judge_time_" (os (Demo.world Demo.os_timed)))
        = true).
Proof.
  apply (run_with_time_missing_input Demo.accepting [Path.str Demo.exe]
           Sample.missing_input (Some 2%Q) (Demo.world Demo.os_timed)).
  - vm_compute. reflexivity.
  - intros Heq. vm_compute in Heq. discriminate Heq.
Defined.

(** ** The orchestrator, further *)

(** X23: whenever [main] returns, the exit code is 0, 1 or 2. *)
Theorem main_returns_0_1_or_2 H args w code w' :
  main H args w = (Ok code, w') -> code = 0 \/ code = 1 \/ code = 2.
Proof.
  intros Hmain.
  destruct (locate_problem H args w) as [[located|e] w0] eqn:Hloc.
  2:{ unfold main, mbind, M_bind in Hmain. by rewrite Hloc in Hmain. }
  destruct located as [c | [[pd info] lbl]].
  - rewrite (main_early _ _ _ _ _ Hloc) in Hmain. injection Hmain as <- <-.
    destruct (locate_problem_inv _ _ _ _ _ Hloc) as (_ & _ & Hc).
    right. left. by apply Hc.
  - destruct (main_trace H args w pd info lbl w0 (Ok code) w' Hloc Hmain)
      as (new & _ & _ & _ & Hcases).
    destruct Hcases as [(msg & _ & [= ->] & _)
                       | (src & _ & [(_ & [e [=]] & _)
                                    | [(cr & _ & _ & [= ->] & _)
                                      | (cr & _ & _ & _ & _ & ->)]])];
      auto.
    destruct (forallb _ _); auto.
Qed.

Lemma main_returns_0_1_or_2_witness :
  (2 : Z) = 0 \/ (2 : Z) = 1 \/ (2 : Z) = 2.
Proof.
  apply (main_returns_0_1_or_2 Demo.adding Demo.args (Demo.world Demo.os_timed)
           2 (snd (main Demo.adding Demo.args (Demo.world Demo.os_timed)))).
  vm_compute. reflexivity.
Defined.

Lemma make_temp_dir_name H prefix w r w' :
  make_temp_dir H prefix w = (r, w') -> r = Ok (mkdtemp H prefix (os w)).
Proof.
  unfold make_temp_dir, mbind, M_bind, gets, modify_os. simpl.
  by intros [= <- _].
Qed.

Lemma try_finally_remove_tree_os {A} (body : M A) d w r w' :
  try_finally body (remove_tree d) w = (r, w') ->
  forall p, d `prefix_of` p ->
    files (os w') !! p = None /\ p ∉ dirs (os w').
Proof.
  unfold try_finally, remove_tree, modify_os.
  destruct (body w) as [r1 w1]. intros [= _ <-] p Hp. simpl. split.
  - apply map_lookup_filter_None. right. intros x _. simpl.
    unfold outside. tauto.
  - rewrite elem_of_filter. unfold outside. tauto.
Qed.

(** X24: once the source is resolved, the build directory is gone when
    [main] ends, however it ends (exit code or exception): no file and no
    directory at or below the name that [TemporaryDirectory] picked is
    left. *)
Theorem build_directory_is_removed H args w problem_dir info label w0 src
    out w' :
  locate_problem H args w = (Ok (inr (problem_dir, info, label)), w0) ->
  find_source (os w) problem_dir (arg_source args) = Ok src ->
  main H args w = (out, w') ->
  forall p, mkdtemp H "judge_build_" (os w) `prefix_of` p ->
    files (os w') !! p = None /\ p ∉ dirs (os w').
Proof.
  intros Hloc Hfs Hmain p Hprefix.
  destruct (locate_problem_inv _ _ _ _ _ Hloc) as (Hos0 & _ & _).
  unfold main in Hmain.
  apply bind_inv in Hmain as [(a & w1 & Hl & Hb) | (e & Hl & _)];
    [|congruence].
  rewrite Hloc in Hl. injection Hl as <- <-.
  cbv beta iota in Hb.
  apply bind_inv in Hb as [([] & w1 & Hp & Hb) | (e & Hp & _)];
    [|by apply emit_inv in Hp as [? _]].
  apply emit_inv in Hp as (_ & Hos1 & _).
  apply bind_inv in Hb as [(found & w2 & Hg & Hb) | (e & Hg & _)];
    [|by apply gets_inv in Hg as [? _]].
  apply gets_inv in Hg as [[= ->] ->]. rewrite Hos1, Hos0, Hfs in Hb.
  quiet_step Hb w2 evs2 Hp2 Hos2 Hev2.
  quiet_step Hb w3 evs3 Hp3 Hos3 Hev3.
  apply bind_inv in Hb as [(tests & w4 & Hg & Hb) | (e & Hg & _)];
    [|by apply gets_inv in Hg as [? _]].
  apply gets_inv in Hg as [_ ->].
  quiet_step Hb w4 evs4 Hp4 Hos4 Hev4.
  apply bind_inv in Hb as [(build_dir & w5 & Hd & Hb) | (e & Hd & _)];
    [|by apply make_temp_dir_inv in Hd as [[? ?] _]].
  apply make_temp_dir_name in Hd. injection Hd as ->.
  rewrite Hos4, Hos3, Hos2, Hos1, Hos0 in Hb.
  by eapply try_finally_remove_tree_os.
Qed.

Lemma build_directory_is_removed_witness :
  files (os (snd (main Demo.adding Demo.args (Demo.world Demo.os_timed))))
    !! (mkdtemp Demo.adding "judge_build_" (os (Demo.world Demo.os_timed))
        ++ ["solution"]) = None
  /\ mkdtemp Demo.adding "judge_build_" (os (Demo.world Demo.os_timed))
       ++ ["solution"]
     ∉ dirs (os (snd (main Demo.adding Demo.args (Demo.world Demo.os_timed)))).
Proof.
  apply (build_directory_is_removed Demo.adding Demo.args
           (Demo.world Demo.os_timed) ["/"; "p"] None (Some "p")
           (snd (locate_problem Demo.adding Demo.args
                   (Demo.world Demo.os_timed)))
           ["/"; "p"; "main.cpp"]
           (fst (main Demo.adding Demo.args (Demo.world Demo.os_timed)))).
  - vm_compute. reflexivity.
  - vm_compute. reflexivity.
  - by destruct (main Demo.adding Demo.args (Demo.world Demo.os_timed)).
  - exists ["solution"]. reflexivity.
Defined.

(** X25: with neither a problem id (or an empty one) nor a directory on
    the command line, [main] ends with [SystemExit(2)] after a message on
    standard error; it starts no process and leaves the files as they
    are. *)
Theorem main_without_target_is_usage_error H args w :
  opt_truthy (arg_pid args) = false ->
  arg_problem_dir args = None ->
  exists text w',
    main H args w = (Raise (SystemExit 2), w')
    /\ os w' = os w
    /\ events w' = events w ++ [EvPrint Stderr text].
Proof.
  intros Hpid Hdir.
  unfold main, locate_problem, mbind, M_bind, gets, print, emit, raise. simpl.
  rewrite Hpid, Hdir. simpl. eexists _, _. split; [reflexivity|]. done.
Qed.

Lemma main_without_target_is_usage_error_witness :
  exists text w',
    main Demo.accepting (with_problem_dir None Demo.args)
      (Demo.world Demo.os_plain) = (Raise (SystemExit 2), w')
    /\ os w' = os (Demo.world Demo.os_plain)
    /\ events w' = events (Demo.world Demo.os_plain) ++ [EvPrint Stderr text].
Proof.
  apply (main_without_target_is_usage_error Demo.accepting
           (with_problem_dir None Demo.args) (Demo.world Demo.os_plain));
    reflexivity.
Defined.

(** X26: a problem id on the command line overrides the positional
    directory: with a non-empty [--pid], [main] does the same whatever
    the positional directory is. *)
Theorem pid_overrides_positional_path H args d w :
  opt_truthy (arg_pid args) = true ->
  main H (with_problem_dir d args) w = main H args w.
Proof.
  intros Hpid. unfold main.
  assert (locate_problem H (with_problem_dir d args)
          = locate_problem H args) as ->.
  { unfold locate_problem. simpl. by rewrite Hpid. }
  reflexivity.
Qed.

Lemma pid_overrides_positional_path_witness :
  main Demo.accepting (with_problem_dir (Some ["/"; "p"]) Sample.pid_args)
    (Demo.world Demo.os_plain)
  = main Demo.accepting Sample.pid_args (Demo.world Demo.os_plain).
Proof.
  apply (pid_overrides_positional_path Demo.accepting Sample.pid_args
           (Some ["/"; "p"]) (Demo.world Demo.os_plain)).
  reflexivity.
Defined.
